(** * Session reconciliation of the Supabase Nuxt plugins

    A shallow embedding of the server-side and the client-side plugin in
    [src/runtime/plugins/supabase.server.ts] and of the part of
    [src/runtime/utils/logger.ts] they call, followed by the properties of
    the shared (session, user) pair that the plugins maintain.

    JavaScript values are JSON trees; [undefined] only ever arises as the
    result of reading a property and is the [None] of [option JsVal].
    Numbers are the integral ones ([Z]): the plugins only compute with whole
    seconds.  A [JNum n] stands for the number [n] as long as its magnitude
    is below 10^21, the range in which a JavaScript integer is written in
    plain digits.  A character of a string is one code unit below 256. *)

From Stdlib Require Import ZArith List String Ascii Bool Lia.
From Stdlib Require Import DecimalString DecimalZ DecimalPos.
Import ListNotations.

Local Open Scope string_scope.
Local Open Scope list_scope.
Local Open Scope Z_scope.

(* ================================================================= *)
(** ** JavaScript values *)

#[warnings="-register-all"]
Inductive JsVal : Type :=
| JNull
| JBool (b : bool)
| JNum (n : Z)
| JStr (s : string)
| JArr (items : list JsVal)
| JObj (fields : list (string * JsVal)).

(** Own properties of an object, in enumeration order. *)
Fixpoint assoc (k : string) (l : list (string * JsVal)) : option JsVal :=
  match l with
  | [] => None
  | (k', v) :: rest => if String.eqb k k' then Some v else assoc k rest
  end.

(** [v.k] for a [v] that is neither [null] nor [undefined].  The plugins read
    the properties [user], [id], [session] and [message] only, which
    primitives and arrays do not have. *)
Definition get_prop (v : JsVal) (k : string) : option JsVal :=
  match v with
  | JObj l => assoc k l
  | _ => None
  end.

(** [!!v] *)
Definition truthy (v : JsVal) : bool :=
  match v with
  | JNull => false
  | JBool b => b
  | JNum n => negb (n =? 0)
  | JStr s => negb (String.eqb s "")
  | JArr _ | JObj _ => true
  end.

Definition truthy_opt (o : option JsVal) : bool :=
  match o with
  | Some v => truthy v
  | None => false
  end.

(** The value of [o] when it is truthy. *)
Definition truthy_value (o : option JsVal) : option JsVal :=
  match o with
  | Some v => if truthy v then Some v else None
  | None => None
  end.

(** [o?.k] *)
Definition opt_member (o : option JsVal) (k : string) : option JsVal :=
  match o with
  | None | Some JNull => None
  | Some v => get_prop v k
  end.

(** [o ?? null] *)
Definition coalesce_null (o : option JsVal) : JsVal :=
  match o with
  | None => JNull
  | Some v => v
  end.

(** [a === b] for two values read from two different provider payloads:
    primitives compare by value, objects and arrays by reference, and the
    references of two payloads are distinct. *)
Definition strict_eq (a b : option JsVal) : bool :=
  match a, b with
  | None, None => true
  | Some JNull, Some JNull => true
  | Some (JBool x), Some (JBool y) => Bool.eqb x y
  | Some (JNum x), Some (JNum y) => Z.eqb x y
  | Some (JStr x), Some (JStr y) => String.eqb x y
  | _, _ => false
  end.

(** The error raised by reading a property of [null] or [undefined]. *)
Definition TypeError : JsVal := JObj [("name", JStr "TypeError")].

(** Own enumerable properties, as a rest pattern [{...rest}] collects them. *)
Definition index_key (i : nat) : string :=
  NilZero.string_of_uint (Nat.to_uint i).

Fixpoint indexed {A : Type} (f : A -> JsVal) (i : nat) (l : list A)
  : list (string * JsVal) :=
  match l with
  | [] => []
  | x :: rest => (index_key i, f x) :: indexed f (S i) rest
  end.

Definition own_entries (v : JsVal) : list (string * JsVal) :=
  match v with
  | JObj l => l
  | JArr l => indexed (fun x => x) 0%nat l
  | JStr s => indexed (fun c => JStr (String c EmptyString)) 0%nat
                      (list_ascii_of_string s)
  | JNull | JBool _ | JNum _ => []
  end.

Fixpoint remove_key (k : string) (l : list (string * JsVal))
  : list (string * JsVal) :=
  match l with
  | [] => []
  | (k', v) :: rest =>
      if String.eqb k k' then remove_key k rest
      else (k', v) :: remove_key k rest
  end.

(** [const { user: _, ...sessionWithoutUser } = v] *)
Definition without_user (v : JsVal) : JsVal :=
  JObj (remove_key "user" (own_entries v)).

(** Induction on values that reaches the elements of arrays and the members
    of objects. *)
Section JsVal_nested_ind.
Variable P : JsVal -> Prop.
Hypothesis Hnull : P JNull.
Hypothesis Hbool : forall b, P (JBool b).
Hypothesis Hnum : forall n, P (JNum n).
Hypothesis Hstr : forall s, P (JStr s).
Hypothesis Harr : forall l, Forall P l -> P (JArr l).
Hypothesis Hobj : forall l, Forall (fun kv => P (snd kv)) l -> P (JObj l).

Fixpoint JsVal_nested_ind (v : JsVal) : P v :=
  match v with
  | JNull => Hnull
  | JBool b => Hbool b
  | JNum n => Hnum n
  | JStr s => Hstr s
  | JArr l =>
      Harr l ((fix go (l : list JsVal) : Forall P l :=
                 match l with
                 | [] => Forall_nil _
                 | x :: r => Forall_cons x (JsVal_nested_ind x) (go r)
                 end) l)
  | JObj l =>
      Hobj l ((fix go (l : list (string * JsVal))
                 : Forall (fun kv => P (snd kv)) l :=
                 match l with
                 | [] => Forall_nil _
                 | kv :: r =>
                     Forall_cons kv (JsVal_nested_ind (snd kv)) (go r)
                 end) l)
  end.
End JsVal_nested_ind.

(* ================================================================= *)
(** ** JSON.stringify *)

Module JSON.

Definition dquote : ascii := ascii_of_nat 34.
Definition backslash : ascii := ascii_of_nat 92.

Definition hex_digit (n : nat) : ascii :=
  nth n (list_ascii_of_string "0123456789abcdef") "0"%char.

(** One code unit of QuoteJSONString. *)
Definition escape_char (c : ascii) : list ascii :=
  let n := nat_of_ascii c in
  if (n =? 8)%nat then [backslash; "b"%char]
  else if (n =? 9)%nat then [backslash; "t"%char]
  else if (n =? 10)%nat then [backslash; "n"%char]
  else if (n =? 12)%nat then [backslash; "f"%char]
  else if (n =? 13)%nat then [backslash; "r"%char]
  else if (n =? 34)%nat then [backslash; dquote]
  else if (n =? 92)%nat then [backslash; backslash]
  else if (n <? 32)%nat then
    [backslash; "u"%char; "0"%char; "0"%char;
     hex_digit (n / 16); hex_digit (n mod 16)]
  else [c].

Fixpoint escape (s : string) : list ascii :=
  match s with
  | EmptyString => []
  | String c rest => escape_char c ++ escape rest
  end.

Definition quote (s : string) : list ascii :=
  dquote :: escape s ++ [dquote].

(** Number::toString on an integer of magnitude below 10^21: its decimal
    digits, after a minus sign when it is negative. *)
Definition number (n : Z) : list ascii :=
  list_ascii_of_string (NilZero.string_of_int (Z.to_int n)).

Definition chars (s : string) : list ascii := list_ascii_of_string s.

(** SerializeJSONProperty without indentation: members are joined by a
    comma, a key and its value by a colon. *)
Fixpoint serialize (v : JsVal) : list ascii :=
  match v with
  | JNull => chars "null"
  | JBool true => chars "true"
  | JBool false => chars "false"
  | JNum n => number n
  | JStr s => quote s
  | JArr [] => chars "[]"
  | JArr (x :: rest) =>
      "["%char :: serialize x ++
      (fix more (l : list JsVal) : list ascii :=
         match l with
         | [] => ["]"%char]
         | y :: l' => ","%char :: serialize y ++ more l'
         end) rest
  | JObj [] => chars "{}"
  | JObj ((k, x) :: rest) =>
      "{"%char :: quote k ++ ":"%char :: serialize x ++
      (fix more (l : list (string * JsVal)) : list ascii :=
         match l with
         | [] => ["}"%char]
         | (k', y) :: l' =>
             ","%char :: quote k' ++ ":"%char :: serialize y ++ more l'
         end) rest
  end.

Definition stringify (v : JsVal) : string :=
  string_of_list_ascii (serialize v).

(** The two local loops of [serialize], by name. *)
Fixpoint more_items (l : list JsVal) : list ascii :=
  match l with
  | [] => ["]"%char]
  | y :: l' => ","%char :: serialize y ++ more_items l'
  end.

Fixpoint more_members (l : list (string * JsVal)) : list ascii :=
  match l with
  | [] => ["}"%char]
  | (k, y) :: l' =>
      ","%char :: quote k ++ ":"%char :: serialize y ++ more_members l'
  end.

(** Reading back one escaped code unit; used to show that the output of
    [serialize] determines its input. *)
Definition hex_value (c : ascii) : nat :=
  let n := nat_of_ascii c in
  if (n <? 58)%nat then (n - 48)%nat else (n - 87)%nat.

Definition unescape_char (l : list ascii) : option (ascii * list ascii) :=
  match l with
  | [] => None
  | c :: rest =>
      if Ascii.eqb c dquote then None
      else if Ascii.eqb c backslash then
        match rest with
        | [] => None
        | e :: rest' =>
            if Ascii.eqb e "b" then Some (ascii_of_nat 8, rest')
            else if Ascii.eqb e "t" then Some (ascii_of_nat 9, rest')
            else if Ascii.eqb e "n" then Some (ascii_of_nat 10, rest')
            else if Ascii.eqb e "f" then Some (ascii_of_nat 12, rest')
            else if Ascii.eqb e "r" then Some (ascii_of_nat 13, rest')
            else if Ascii.eqb e "u" then
              match rest' with
              | _ :: _ :: h :: l :: rest'' =>
                  Some (ascii_of_nat (16 * hex_value h + hex_value l), rest'')
              | _ => None
              end
            else Some (e, rest')
        end
      else Some (c, rest)
  end.

Definition is_digit (c : ascii) : bool :=
  let n := nat_of_ascii c in ((48 <=? n) && (n <=? 57))%nat.

Definition number_start (c : ascii) : bool :=
  is_digit c || Ascii.eqb c "-".

Definition value_start (c : ascii) : bool :=
  negb (Ascii.eqb c "]" || Ascii.eqb c "}" || Ascii.eqb c ",").

(** What may follow a serialized value: nothing, or a character that does
    not continue a number. *)
Definition delimited (r : list ascii) : Prop :=
  match r with
  | [] => True
  | c :: _ => is_digit c = false
  end.

Definition digits (d : Decimal.uint) : list ascii :=
  list_ascii_of_string (NilEmpty.string_of_uint d).

Definition injective_at (v : JsVal) : Prop :=
  forall v2 r1 r2, delimited r1 -> delimited r2 ->
    serialize v ++ r1 = serialize v2 ++ r2 -> v = v2 /\ r1 = r2.

End JSON.

(* ================================================================= *)
(** ** Effects: shared state, console and exceptions *)

Inductive Level := INFO | WARN | ERROR.

Inductive Source := client | server.

Definition LogData := list (string * option JsVal).

(** The [logObject] of logger.ts, without the clock and browser readings.
    [log_data] is there when [data] was passed, [log_error] when [error] is
    truthy (an [Error] instance is recorded as the value itself). *)
Record LogObject := {
  log_level : Level;
  log_message : string;
  log_data : option LogData;
  log_error : option JsVal;
  log_source : Source
}.

Inductive ClientKind := ServerClient | BrowserClient | PlainClient.

(** What the SDK constructors are called with. *)
Record Client := {
  client_kind : ClientKind;
  client_url : string;
  client_key : string;
  client_cookie_name : option string
}.

(** [useRuntimeConfig().public.supabase] *)
Record SupabaseConfig := {
  url : string;
  key : string;
  cookiePrefix : string;
  useSsrCookies : bool
}.

Inductive Cell := SessionCell | UserCell.

(** The two reactive cells [useSupabaseSession()] and [useSupabaseUser()]
    with the assignments made to them so far, the console, and what the
    plugin provided to the application. *)
Record World := {
  currentSession : JsVal;
  currentUser : JsVal;
  writes : list (Cell * JsVal);
  console : list LogObject;
  provided : list (string * Client)
}.

Inductive Completion (A : Type) : Type :=
| Normal (a : A)
| Abrupt (e : JsVal).
Arguments Normal {A} a.
Arguments Abrupt {A} e.

(** A settled promise. *)
Inductive Settled (A : Type) : Type :=
| Fulfilled (value : A)
| Rejected (reason : JsVal).
Arguments Fulfilled {A} value.
Arguments Rejected {A} reason.

(** [{ data, error }] as the auth methods of the SDK resolve it. *)
Record Response := {
  data : JsVal;
  error : JsVal
}.

Section Eff.
Context {St : Type}.

Definition Eff (A : Type) : Type := St -> Completion A * St.

Definition ret {A} (a : A) : Eff A := fun s => (Normal a, s).

Definition bind {A B} (m : Eff A) (k : A -> Eff B) : Eff B :=
  fun s =>
    match m s with
    | (Normal a, s') => k a s'
    | (Abrupt e, s') => (Abrupt e, s')
    end.

Definition throw {A} (e : JsVal) : Eff A := fun s => (Abrupt e, s).

(** [try { body } catch (e) { handler e }] *)
Definition try_catch {A} (body : Eff A) (handler : JsVal -> Eff A) : Eff A :=
  fun s =>
    match body s with
    | (Normal a, s') => (Normal a, s')
    | (Abrupt e, s') => handler e s'
    end.

Definition get : Eff St := fun s => (Normal s, s).

Definition modify (f : St -> St) : Eff unit := fun s => (Normal tt, f s).

(** [await p] *)
Definition await {A} (p : Settled A) : Eff A :=
  match p with
  | Fulfilled v => ret v
  | Rejected e => throw e
  end.

(** [base.k] *)
Definition member (base : option JsVal) (k : string) : Eff (option JsVal) :=
  match base with
  | None | Some JNull => throw TypeError
  | Some v => ret (get_prop v k)
  end.
End Eff.
Arguments Eff : clear implicits.

Declare Scope eff_scope.
Delimit Scope eff_scope with eff.
Notation "x <- m ;; k" := (bind m (fun x => k))
  (at level 61, m at next level, right associativity) : eff_scope.
Notation "m ;; k" := (bind m (fun _ => k))
  (at level 61, right associativity) : eff_scope.
Local Open Scope eff_scope.

(* ----------------------------------------------------------------- *)
(** *** logger.ts *)

Module logger.

Definition emit (o : LogObject) : Eff World unit :=
  modify (fun w => {| currentSession := currentSession w;
                      currentUser := currentUser w;
                      writes := writes w;
                      console := console w ++ [o];
                      provided := provided w |}).

Definition source_of (isClient : bool) : Source :=
  if isClient then client else server.

Definition info (isClient : bool) (message : string) (d : option LogData)
  : Eff World unit :=
  emit {| log_level := INFO; log_message := message; log_data := d;
          log_error := None; log_source := source_of isClient |}.

Definition warn (isClient : bool) (message : string) (d : option LogData)
  : Eff World unit :=
  emit {| log_level := WARN; log_message := message; log_data := d;
          log_error := None; log_source := source_of isClient |}.

Definition error (isClient : bool) (message : string) (e : JsVal)
  : Eff World unit :=
  emit {| log_level := ERROR; log_message := message; log_data := None;
          log_error := if truthy e then Some e else None;
          log_source := source_of isClient |}.

End logger.

Definition set_currentSession (v : JsVal) : Eff World unit :=
  modify (fun w => {| currentSession := v;
                      currentUser := currentUser w;
                      writes := writes w ++ [(SessionCell, v)];
                      console := console w;
                      provided := provided w |}).

Definition set_currentUser (v : JsVal) : Eff World unit :=
  modify (fun w => {| currentSession := currentSession w;
                      currentUser := v;
                      writes := writes w ++ [(UserCell, v)];
                      console := console w;
                      provided := provided w |}).

Definition provide (name : string) (c : Client) : Eff World unit :=
  modify (fun w => {| currentSession := currentSession w;
                      currentUser := currentUser w;
                      writes := writes w;
                      console := console w;
                      provided := provided w ++ [(name, c)] |}).

(* ================================================================= *)
(** ** The server-side plugin *)

Module ServerPlugin.

Definition isClient : bool := false.

(** [p.catch((error) => { logger.error(message, error); return null })] *)
Definition caught (message : string) (p : Settled JsVal) : Eff World JsVal :=
  match p with
  | Fulfilled v => ret v
  | Rejected e => logger.error isClient message e ;; ret JNull
  end.

Definition createServerClient (cfg : SupabaseConfig) : Client :=
  {| client_kind := ServerClient;
     client_url := url cfg;
     client_key := key cfg;
     client_cookie_name := Some (cookiePrefix cfg) |}.

(** Which of the two promises under [Promise.all] settles first. *)
Inductive Settlement := session_first | user_first.

(** [await Promise.all([s.catch(...), u.catch(...)])]: the results keep
    their places, the two handlers run in the order in which the promises
    reject. *)
Definition all_caught (first : Settlement)
    (serverSupabaseSession serverSupabaseUser : Settled JsVal)
  : Eff World (JsVal * JsVal) :=
  match first with
  | session_first =>
      session <- caught "Failed to retrieve server-side Supabase session"
                        serverSupabaseSession ;;
      user <- caught "Failed to retrieve server-side Supabase user"
                     serverSupabaseUser ;;
      ret (session, user)
  | user_first =>
      user <- caught "Failed to retrieve server-side Supabase user"
                     serverSupabaseUser ;;
      session <- caught "Failed to retrieve server-side Supabase session"
                        serverSupabaseSession ;;
      ret (session, user)
  end.

(** [setup]; the two arguments after the configuration are what
    [serverSupabaseSession(event)] and [serverSupabaseUser(event)] settle
    to, the last one which of them settles first. *)
Definition setup (cfg : SupabaseConfig)
    (serverSupabaseSession serverSupabaseUser : Settled JsVal)
    (first : Settlement)
  : Eff World unit :=
  logger.info isClient "Initializing server-side Supabase client" None ;;
  provide "supabase" (createServerClient cfg) ;;
  if useSsrCookies cfg then
    logger.info isClient
      "Attempting to retrieve server-side Supabase session and user" None ;;
    try_catch
      (results <- all_caught first serverSupabaseSession serverSupabaseUser ;;
       let session := fst results in
       let user := snd results in
       set_currentSession session ;;
       set_currentUser user ;;
       if truthy session && truthy user then
         logger.info isClient
           "Successfully retrieved server-side Supabase session and user"
           (Some [("userId", get_prop user "id");
                  ("hasSession", Some (JBool (truthy session)))])
       else
         logger.info isClient
           "No active server-side Supabase session or user found"
           (Some [("hasSession", Some (JBool (truthy session)));
                  ("hasUser", Some (JBool (truthy user)))]))
      (fun error =>
         logger.error isClient
           "Error initializing server-side Supabase authentication" error)
  else
    logger.info isClient
      "SSR cookies disabled, skipping server-side auth initialization" None.

End ServerPlugin.

(* ================================================================= *)
(** ** The client-side plugin *)

Module ClientPlugin.

Definition isClient : bool := true.

(** The shared state together with the two local variables [session] and
    [user] of [setup]. *)
Record Frame := {
  world : World;
  var_session : JsVal;
  var_user : JsVal
}.

Definition lift {A} (m : Eff World A) : Eff Frame A :=
  fun f =>
    let (r, w) := m (world f) in
    (r, {| world := w; var_session := var_session f; var_user := var_user f |}).

Definition set_session (v : JsVal) : Eff Frame unit :=
  modify (fun f => {| world := world f; var_session := v;
                      var_user := var_user f |}).

Definition set_user (v : JsVal) : Eff Frame unit :=
  modify (fun f => {| world := world f; var_session := var_session f;
                      var_user := v |}).

Definition createBrowserClient (cfg : SupabaseConfig) : Client :=
  {| client_kind := BrowserClient;
     client_url := url cfg;
     client_key := key cfg;
     client_cookie_name := Some (cookiePrefix cfg) |}.

Definition createClient (cfg : SupabaseConfig) : Client :=
  {| client_kind := PlainClient;
     client_url := url cfg;
     client_key := key cfg;
     client_cookie_name := None |}.

(** The session built when [getSession()] gave none; [now] is [Date.now()],
    in milliseconds. *)
Definition constructed_session (now : Z) : JsVal :=
  JObj [("access_token", JStr "");
        ("refresh_token", JStr "");
        ("expires_in", JNum 3600);
        ("expires_at", JNum (now / 1000 + 3600));
        ("token_type", JStr "bearer")].

(** The body of the [try] block.  [getUser] and [getSession] are what
    [client.auth.getUser()] and [client.auth.getSession()] settle to. *)
Definition verify (getUser getSession : Settled Response) (now : Z)
  : Eff Frame unit :=
  lift (logger.info isClient "Verifying user authentication" None) ;;
  r <- await getUser ;;
  let userData := data r in
  let userError := error r in
  r' <- await getSession ;;
  let sessionData := data r' in
  let sessionError := error r' in
  let session_of_data := opt_member (Some sessionData) "session" in
  lift (logger.info isClient "Authentication verification"
    (Some [("hasUserData",
            Some (JBool (truthy_opt (opt_member (Some userData) "user"))));
           ("hasSessionData", Some (JBool (truthy_opt session_of_data)));
           ("userError", opt_member (Some userError) "message");
           ("sessionError", opt_member (Some sessionError) "message");
           ("userMatch",
            Some (JBool (strict_eq
              (opt_member (opt_member (Some userData) "user") "id")
              (opt_member (opt_member session_of_data "user") "id"))))])) ;;
  found <- (if truthy userError then ret None
            else member (Some userData) "user") ;;
  match truthy_value found with
  | Some user =>
      set_user user ;;
      lift (logger.info isClient "User authenticated successfully"
              (Some [("userId", get_prop user "id")])) ;;
      (match truthy_value session_of_data with
       | Some s =>
           let sessionUser := get_prop s "user" in
           if negb (strict_eq (opt_member sessionUser "id")
                              (get_prop user "id")) then
             getSessionUserId <- member sessionUser "id" ;;
             lift (logger.warn isClient
                     "User ID mismatch between getUser and getSession"
                     (Some [("getUserId", get_prop user "id");
                            ("getSessionUserId", getSessionUserId)]))
           else ret tt
       | None => ret tt
       end) ;;
      if truthy user then
        match truthy_value session_of_data with
        | Some s =>
            set_session (without_user s) ;;
            lift (logger.info isClient
                    "Using session data from getSession()" None)
        | None =>
            set_session (constructed_session now) ;;
            lift (logger.info isClient
                    "Session constructed from user data successfully" None)
        end
      else ret tt
  | None =>
      lift (logger.info isClient "No active user found" None) ;;
      if truthy userError then
        lift (logger.error isClient "User verification error:" userError)
      else ret tt
  end.

(** The callback registered by [client.auth.onAuthStateChange]. *)
Definition onAuthStateChange (event : string) (session : JsVal)
  : Eff World unit :=
  logger.info isClient "Auth state changed"
    (Some [("event", Some (JStr event)); ("session", Some session)]) ;;
  w <- get ;;
  if negb (String.eqb (JSON.stringify (currentSession w))
                      (JSON.stringify session)) then
    set_currentSession session ;;
    set_currentUser (coalesce_null (opt_member (Some session) "user"))
  else ret tt.

(** [try { ... } catch (error) { ... }] around [verify]. *)
Definition initialize (getUser getSession : Settled Response) (now : Z)
  : Eff Frame unit :=
  try_catch (verify getUser getSession now)
    (fun error =>
       lift (logger.error isClient
               "Authentication initialization error:" error) ;;
       set_session JNull ;;
       set_user JNull).

(** Set the reactive state variables. *)
Definition publish : Eff Frame unit :=
  f <- get ;;
  lift (set_currentSession (var_session f)) ;;
  lift (set_currentUser (var_user f)).

(** [let session = null; let user = null] in scope of [body]. *)
Definition with_locals {A} (body : Eff Frame A) : Eff World A :=
  fun w =>
    let (r, f) := body {| world := w; var_session := JNull;
                          var_user := JNull |} in
    (r, world f).

(** [setup], up to the registration of the callback. *)
Definition setup (cfg : SupabaseConfig) (getUser getSession : Settled Response)
    (now : Z) : Eff World unit :=
  provide "supabase"
    (if useSsrCookies cfg then createBrowserClient cfg else createClient cfg) ;;
  with_locals (initialize getUser getSession now ;; publish).

(** An auth event [(eventKind, session)]. *)
Definition AuthEvent : Type := string * JsVal.

(** The callback run on the events of the stream, in arrival order. *)
Fixpoint deliver (events : list AuthEvent) : Eff World unit :=
  match events with
  | [] => ret tt
  | (kind, session) :: rest => onAuthStateChange kind session ;; deliver rest
  end.

End ClientPlugin.

(** The Credential Pair held by the two cells. *)
Definition pair_of (w : World) : JsVal * JsVal :=
  (currentSession w, currentUser w).

Definition state_after {A} (r : Completion A * World) : World := snd r.

Definition completes {A} (r : Completion A * World) : bool :=
  match fst r with
  | Normal _ => true
  | Abrupt _ => false
  end.

(** [user == null] implies [session == null]. *)
Definition null_safe (w : World) : Prop :=
  currentUser w = JNull -> currentSession w = JNull.

(** [Session | null] as far as the callback reads it: [null], or a value
    whose [user] is there and not [null]. *)
Definition typed_session (s : JsVal) : bool :=
  match s with
  | JNull => true
  | _ => match get_prop s "user" with
         | Some JNull | None => false
         | Some _ => true
         end
  end.

(** Deep structural equality, as the specification words the comparison of
    sessions: two values are equal when they are the same primitive, arrays
    of the same length with equal elements in turn, or objects with the same
    number of properties where every property of the first is a property of
    the second with an equal value, in whatever order the properties
    come. *)
Fixpoint deep_equal (a b : JsVal) : bool :=
  match a, b with
  | JNull, JNull => true
  | JBool x, JBool y => Bool.eqb x y
  | JNum x, JNum y => Z.eqb x y
  | JStr x, JStr y => String.eqb x y
  | JArr l1, JArr l2 =>
      (fix all2 (l1 l2 : list JsVal) : bool :=
         match l1, l2 with
         | [], [] => true
         | x :: r1, y :: r2 => deep_equal x y && all2 r1 r2
         | _, _ => false
         end) l1 l2
  | JObj l1, JObj l2 =>
      Nat.eqb (List.length l1) (List.length l2) &&
      (fix each (l : list (string * JsVal)) : bool :=
         match l with
         | [] => true
         | (k, v) :: rest =>
             match assoc k l2 with
             | Some v' => deep_equal v v'
             | None => false
             end && each rest
         end) l1
  | _, _ => false
  end.

(** [o] was written to the console between [w] and [w']. *)
Definition logged (w w' : World) (o : LogObject) : Prop :=
  exists l, console w' = console w ++ l /\ In o l.

(** Nothing at level ERROR was written to the console between [w] and [w']. *)
Definition no_error_logged (w w' : World) : Prop :=
  exists l, console w' = console w ++ l /\
            Forall (fun o => log_level o <> ERROR) l.

(** What a promise handled by [.catch(() => null)] yields. *)
Definition or_null (p : Settled JsVal) : JsVal :=
  match p with
  | Fulfilled v => v
  | Rejected _ => JNull
  end.

(** Console entries of the client plugin. *)
Definition mismatch_warning (A B : JsVal) : LogObject :=
  {| log_level := WARN;
     log_message := "User ID mismatch between getUser and getSession";
     log_data := Some [("getUserId", get_prop A "id");
                       ("getSessionUserId", get_prop B "id")];
     log_error := None;
     log_source := client |}.

Definition no_active_user : LogObject :=
  {| log_level := INFO;
     log_message := "No active user found";
     log_data := None;
     log_error := None;
     log_source := client |}.

Definition verification_error (e : JsVal) : LogObject :=
  {| log_level := ERROR;
     log_message := "User verification error:";
     log_data := None;
     log_error := if truthy e then Some e else None;
     log_source := client |}.

Definition initialization_error (e : JsVal) : LogObject :=
  {| log_level := ERROR;
     log_message := "Authentication initialization error:";
     log_data := None;
     log_error := if truthy e then Some e else None;
     log_source := client |}.

(** Concrete inputs on which the properties below are exercised. *)
Module Fixtures.

Definition config : SupabaseConfig :=
  {| url := "https://project.supabase.co"; key := "anon-key";
     cookiePrefix := "sb"; useSsrCookies := true |}.

Definition config_no_ssr : SupabaseConfig :=
  {| url := "https://project.supabase.co"; key := "anon-key";
     cookiePrefix := "sb"; useSsrCookies := false |}.

Definition fresh : World :=
  {| currentSession := JNull; currentUser := JNull; writes := [];
     console := []; provided := [] |}.

Definition user_u1 : JsVal := JObj [("id", JStr "u1")].
Definition user_u2 : JsVal := JObj [("id", JStr "u2")].

Definition session_of (u : JsVal) : JsVal :=
  JObj [("access_token", JStr "at"); ("refresh_token", JStr "rt");
        ("expires_in", JNum 3600); ("token_type", JStr "bearer");
        ("user", u)].

Definition stored_session : JsVal :=
  JObj [("access_token", JStr "at"); ("refresh_token", JStr "rt");
        ("expires_in", JNum 3600); ("token_type", JStr "bearer")].

Definition signed_in : World :=
  {| currentSession := session_of user_u1; currentUser := user_u1;
     writes := []; console := []; provided := [] |}.

Definition auth_error : JsVal :=
  JObj [("name", JStr "AuthSessionMissingError");
        ("message", JStr "Auth session missing!")].

Definition getUser_u1 : Response :=
  {| data := JObj [("user", user_u1)]; error := JNull |}.

Definition getUser_failed : Response :=
  {| data := JObj [("user", JNull)]; error := auth_error |}.

Definition getSession_u2 : Response :=
  {| data := JObj [("session", session_of user_u2)]; error := JNull |}.

Definition getSession_failed : Response :=
  {| data := JObj [("session", JNull)]; error := auth_error |}.

(** A session payload that lacks its [user]. *)
Definition getSession_without_user : Response :=
  {| data := JObj [("session", stored_session)]; error := JNull |}.

Definition events : list (string * JsVal) :=
  [("SIGNED_IN", session_of user_u1);
   ("TOKEN_REFRESHED", session_of user_u1);
   ("SIGNED_OUT", JNull)].

End Fixtures.

(* ================================================================= *)
(** ** Retrying transport *)

Module RetryingTransport.

(** Modelled from the spec: the source of [fetchWithRetry]
    ([src/runtime/utils/fetch-retry]) is not available; what one attempt
    of the wrapped request can end in. *)
Inductive Attempt :=
| Responded (status : Z)
| NetworkError
| ConnectionReset
| TimedOut
| MalformedRequest.

(** Modelled from the spec: how the transport classifies what an attempt
    ended in. *)
Inductive Classification := Success | Retryable | Terminal.

(** Modelled from the spec: the retry policy of [fetchWithRetry].  Network
    error, connection reset, 5xx status and timeout are retryable, as is the
    rate-limit status 429; any other 4xx status and a malformed request are
    terminal; every other response is a success, whatever its body. *)
Definition classify (a : Attempt) : Classification :=
  match a with
  | Responded status =>
      if (500 <=? status) && (status <=? 599) then Retryable
      else if status =? 429 then Retryable
      else if (400 <=? status) && (status <=? 499) then Terminal
      else Success
  | NetworkError | ConnectionReset | TimedOut => Retryable
  | MalformedRequest => Terminal
  end.

(** Modelled from the spec: a response on success, or a terminal failure
    carrying the last error, if an attempt was made at all. *)
Inductive Result :=
| Response (a : Attempt)
| Failure (last : option Attempt).

(** Modelled from the spec: the per-call retry state at the end of one
    logical request. *)
Record Call := {
  result : Result;
  attempts : nat;
  delays : list Z
}.

(** Modelled from the spec: the retry loop of [fetchWithRetry].  [left] is
    the number of attempts still allowed, [i] the index of the next attempt,
    [delay] the backoff before the attempt after it (doubling each time) and
    [network i] what attempt [i] ends in. *)
Fixpoint loop (left i : nat) (delay : Z) (network : nat -> Attempt) : Call :=
  match left with
  | O => {| result := Failure None; attempts := 0; delays := [] |}
  | S left' =>
      let a := network i in
      match classify a with
      | Success => {| result := Response a; attempts := 1; delays := [] |}
      | Terminal =>
          {| result := Failure (Some a); attempts := 1; delays := [] |}
      | Retryable =>
          match left' with
          | O => {| result := Failure (Some a); attempts := 1; delays := [] |}
          | S _ =>
              let c := loop left' (S i) (2 * delay) network in
              {| result := result c;
                 attempts := S (attempts c);
                 delays := delay :: delays c |}
          end
      end
  end.

(** Modelled from the spec: [fetchWithRetry] with maximum attempt count
    [maxAttempts] and base delay [baseDelay]. *)
Definition fetchWithRetry (maxAttempts : nat) (baseDelay : Z)
    (network : nat -> Attempt) : Call :=
  loop maxAttempts 0 baseDelay network.

Definition failed (c : Call) : bool :=
  match result c with
  | Failure _ => true
  | Response _ => false
  end.

End RetryingTransport.

(* ================================================================= *)
(** ** Further vocabulary for the plugins *)

(** The outcomes of the try/catch of the client plugin, as values of the two
    local variables: both [null]; or the user of [getUser()] next to the
    session of [getSession()] without its [user], or next to the constructed
    session when [getSession()] brought none. *)
Definition reconciled (gu gs : Settled Response) (now : Z)
    (session user : JsVal) : Prop :=
  (session = JNull /\ user = JNull) \/
  (exists ru, gu = Fulfilled ru /\ truthy (error ru) = false /\
     get_prop (data ru) "user" = Some user /\ truthy user = true /\
     exists rs, gs = Fulfilled rs /\
       ((exists S, get_prop (data rs) "session" = Some S /\ truthy S = true /\
                   session = without_user S) \/
        (truthy_opt (get_prop (data rs) "session") = false /\
         session = ClientPlugin.constructed_session now))).

(** Only entries at level INFO were written to the console between [w] and
    [w']. *)
Definition only_info_logged (w w' : World) : Prop :=
  exists l, console w' = console w ++ l /\
            Forall (fun o => log_level o = INFO) l.

(** [session?.user ?? null] *)
Definition user_of (session : JsVal) : JsVal :=
  coalesce_null (opt_member (Some session) "user").

(** The console entry of the callback for one event. *)
Definition auth_state_changed (ev : ClientPlugin.AuthEvent) : LogObject :=
  {| log_level := INFO;
     log_message := "Auth state changed";
     log_data := Some [("event", Some (JStr (fst ev)));
                       ("session", Some (snd ev))];
     log_error := None;
     log_source := client |}.

(** The user cell holds the user of the held session, or the held session
    is a value without [user] other than [null]. *)
Definition settled (w : World) : Prop :=
  currentUser w = user_of (currentSession w) \/
  (currentSession w <> JNull /\ get_prop (currentSession w) "user" = None).

Definition is_error (o : LogObject) : bool :=
  match log_level o with
  | ERROR => true
  | _ => false
  end.

(** The console entry of the server plugin for a retrieval that failed. *)
Definition retrieval_error (message : string) (p : Settled JsVal)
  : list LogObject :=
  match p with
  | Fulfilled _ => []
  | Rejected e =>
      [{| log_level := ERROR; log_message := message; log_data := None;
          log_error := if truthy e then Some e else None;
          log_source := server |}]
  end.

(* ================================================================= *)
(** ** The options the plugins pass to the SDK constructors *)

Module ClientOptions.

(** Functions that occur as option values. *)
Inductive Fn :=
| fetchWithRetry
| getAll
| setAll
| custom (name : string).

(** Option values: JSON data, functions, and objects of option values. *)
#[warnings="-register-all"]
Inductive Opt : Type :=
| OVal (v : JsVal)
| OFn (f : Fn)
| OObj (fields : list (string * Opt)).

Definition Obj : Type := list (string * Opt).

Fixpoint lookup (k : string) (o : Obj) : option Opt :=
  match o with
  | [] => None
  | (k', v) :: rest => if String.eqb k k' then Some v else lookup k rest
  end.

(** [o[k] = v]: an existing property keeps its place, a new one comes
    last. *)
Fixpoint define (k : string) (v : Opt) (o : Obj) : Obj :=
  match o with
  | [] => [(k, v)]
  | (k', v') :: rest =>
      if String.eqb k k' then (k', v) :: rest
      else (k', v') :: define k v rest
  end.

(** [{ ...o, ...src }] *)
Fixpoint spread (src : Obj) (o : Obj) : Obj :=
  match src with
  | [] => o
  | (k, v) :: rest => spread rest (define k v o)
  end.

(** The own enumerable properties that [...x] copies; nothing for
    [undefined], [null], other primitives without indices, and functions. *)
Definition entries (x : option Opt) : Obj :=
  match x with
  | Some (OObj fields) => fields
  | Some (OVal v) => map (fun kv => (fst kv, OVal (snd kv))) (own_entries v)
  | Some (OFn _) | None => []
  end.

(** [useRuntimeConfig().public.supabase], with the two option objects. *)
Record PluginConfig := {
  base : SupabaseConfig;
  cookieOptions : Obj;
  clientOptions : Obj
}.

(** [{ fetch: fetchWithRetry, ...clientOptions.global }] *)
Definition global_options (cfg : PluginConfig) : Obj :=
  spread (entries (lookup "global" (clientOptions cfg)))
         [("fetch", OFn fetchWithRetry)].

(** [{ ...cookieOptions, name: cookiePrefix }] *)
Definition cookie_options (cfg : PluginConfig) : Obj :=
  define "name" (OVal (JStr (cookiePrefix (base cfg))))
         (spread (cookieOptions cfg) []).

(** The third argument of [createServerClient]. *)
Definition server_options (cfg : PluginConfig) : Obj :=
  define "global" (OObj (global_options cfg))
    (define "cookieOptions" (OObj (cookie_options cfg))
       (define "cookies" (OObj [("getAll", OFn getAll); ("setAll", OFn setAll)])
          (spread (clientOptions cfg) []))).

(** The third argument of [createBrowserClient]. *)
Definition browser_options (cfg : PluginConfig) : Obj :=
  define "global" (OObj (global_options cfg))
    (define "isSingleton" (OVal (JBool true))
       (define "cookieOptions" (OObj (cookie_options cfg))
          (spread (clientOptions cfg) []))).

(** The third argument of [createClient]. *)
Definition plain_options (cfg : PluginConfig) : Obj :=
  define "global" (OObj (global_options cfg))
    (spread (clientOptions cfg) []).

(** The options of the client plugin, by [useSsrCookies]. *)
Definition client_options (cfg : PluginConfig) : Obj :=
  if useSsrCookies (base cfg) then browser_options cfg else plain_options cfg.

(** [o.a.b] on option objects. *)
Definition lookup2 (a b : string) (o : Obj) : option Opt :=
  match lookup a o with
  | Some (OObj fields) => lookup b fields
  | _ => None
  end.

End ClientOptions.

(* ================================================================= *)
(** ** logger.ts in full *)

Module LoggerSource.

Inductive ConsoleMethod := console_log | console_warn | console_error.

(** A call of a console method: the text of its first argument and, for the
    report of a failed post, the error passed after it. *)
Record ConsoleCall := {
  method : ConsoleMethod;
  text : string;
  detail : option JsVal
}.

(** A call of [fetch]. *)
Record Request := {
  request_url : string;
  request_method : string;
  request_headers : list (string * string);
  request_body : string
}.

Record Io := {
  calls : list ConsoleCall;
  requests : list Request
}.

(** What [navigator], [window] and [document] hold. *)
Record Browser := {
  userAgent : string;
  language : string;
  innerWidth : Z;
  innerHeight : Z;
  href : string;
  referrer : string
}.

(** What one call of a logger method reads from its surroundings: whether
    [window] is defined, the clock ([new Date().toISOString()]) and the
    browser. *)
Record Env := {
  isClient : bool;
  timestamp : string;
  browser : Browser
}.

Definition print (m : ConsoleMethod) (line : string) (d : option JsVal)
  : Io -> Io :=
  fun io => {| calls := calls io ++ [{| method := m; text := line;
                                        detail := d |}];
               requests := requests io |}.

Definition fetch (r : Request) : Io -> Io :=
  fun io => {| calls := calls io; requests := requests io ++ [r] |}.

Definition getBrowserInfo (env : Env) : JsVal :=
  if negb (isClient env) then JObj []
  else
    JObj [("userAgent", JStr (userAgent (browser env)));
          ("language", JStr (language (browser env)));
          ("viewport", JObj [("width", JNum (innerWidth (browser env)));
                             ("height", JNum (innerHeight (browser env)))]);
          ("url", JStr (href (browser env)));
          ("referrer",
           JStr (if String.eqb (referrer (browser env)) ""
                 then "direct" else referrer (browser env)))].

(** [sendLogToServer]: the post is issued and not awaited. *)
Definition sendLogToServer (env : Env) (logData : JsVal) : Io -> Io :=
  fetch {| request_url := "/api/client-logs";
           request_method := "POST";
           request_headers := [("Content-Type", "application/json")];
           request_body := JSON.stringify logData |}.

(** The handler that [sendLogToServer] attaches with [.catch]; it runs when
    a post is rejected, some time after the logger call that issued it has
    returned. *)
Definition post_failed (err : JsVal) : Io -> Io :=
  print console_error "Failed to send log to server:" (Some err).

Definition source_name (env : Env) : JsVal :=
  JStr (if isClient env then "client" else "server").

(** [...(data && { data })] *)
Definition data_field (d : option JsVal) : list (string * JsVal) :=
  match d with
  | Some v => if truthy v then [("data", v)] else []
  | None => []
  end.

(** [...(isClient && { browser: getBrowserInfo() })] *)
Definition browser_field (env : Env) : list (string * JsVal) :=
  if isClient env then [("browser", getBrowserInfo env)] else [].

Definition leveled (env : Env) (level message : string)
    (d : option JsVal) : JsVal :=
  JObj ([("timestamp", JStr (timestamp env));
         ("level", JStr level);
         ("message", JStr message)]
        ++ data_field d
        ++ [("source", source_name env)]
        ++ browser_field env).

Definition emit (env : Env) (m : ConsoleMethod) (logObject : JsVal)
  : Io -> Io :=
  fun io =>
    let io' := print m (JSON.stringify logObject) None io in
    if isClient env then sendLogToServer env logObject io' else io'.

Definition info (env : Env) (message : string) (d : option JsVal)
  : Io -> Io :=
  emit env console_log (leveled env "INFO" message d).

Definition warn (env : Env) (message : string) (d : option JsVal)
  : Io -> Io :=
  emit env console_warn (leveled env "WARN" message d).

(** The [error] argument: an instance of [Error] with its message and
    stack, or any other value, [None] when it was not passed. *)
Inductive ErrorObject :=
| IsError (message : string) (stack : option string)
| NotError (v : option JsVal).

(** The properties that [if (error) { ... }] adds to the log object. *)
Definition error_fields (e : ErrorObject) : list (string * JsVal) :=
  match e with
  | IsError message stack =>
      ("error", JStr message) ::
      match stack with
      | Some s => if String.eqb s "" then [] else [("stack", JStr s)]
      | None => []
      end
  | NotError (Some v) => if truthy v then [("error", v)] else []
  | NotError None => []
  end.

Definition error_object (env : Env) (message : string) (e : ErrorObject)
  : JsVal :=
  JObj ([("timestamp", JStr (timestamp env));
         ("level", JStr "ERROR");
         ("message", JStr message);
         ("source", source_name env)]
        ++ browser_field env
        ++ error_fields e).

Definition error (env : Env) (message : string) (e : ErrorObject)
  : Io -> Io :=
  emit env console_error (error_object env message e).

Definition navigation_object (env : Env) (to from : string) : JsVal :=
  JObj [("timestamp", JStr (timestamp env));
        ("level", JStr "INFO");
        ("message", JStr "Page navigation");
        ("data", JObj [("to", JStr to); ("from", JStr from)]);
        ("source", JStr "client");
        ("browser", getBrowserInfo env)].

Definition navigation (env : Env) (to from : string) : Io -> Io :=
  emit env console_log (navigation_object env to from).

(** A call of one of the four methods of [logger]. *)
Inductive Call :=
| Info (message : string) (d : option JsVal)
| Warn (message : string) (d : option JsVal)
| Error (message : string) (e : ErrorObject)
| Navigation (to from : string).

Definition logObject (env : Env) (c : Call) : JsVal :=
  match c with
  | Info message d => leveled env "INFO" message d
  | Warn message d => leveled env "WARN" message d
  | Error message e => error_object env message e
  | Navigation to from => navigation_object env to from
  end.

Definition channel (c : Call) : ConsoleMethod :=
  match c with
  | Info _ _ | Navigation _ _ => console_log
  | Warn _ _ => console_warn
  | Error _ _ => console_error
  end.

Definition perform (env : Env) (c : Call) : Io -> Io :=
  match c with
  | Info message d => info env message d
  | Warn message d => warn env message d
  | Error message e => error env message e
  | Navigation to from => navigation env to from
  end.

End LoggerSource.

(** What happens to the logger, one thing after the other: a call of one of
    its methods, with what the call reads from its surroundings, or the
    rejection of a post issued earlier. *)
Inductive LoggerStep :=
| LoggerCall (env : LoggerSource.Env) (c : LoggerSource.Call)
| PostRejected (err : JsVal).

Fixpoint run_logger (l : list LoggerStep) (io : LoggerSource.Io)
  : LoggerSource.Io :=
  match l with
  | [] => io
  | LoggerCall env c :: rest =>
      run_logger rest (LoggerSource.perform env c io)
  | PostRejected err :: rest =>
      run_logger rest (LoggerSource.post_failed err io)
  end.

(** The console call that prints the log object of a logger call. *)
Definition printed (ec : LoggerSource.Env * LoggerSource.Call)
  : LoggerSource.ConsoleCall :=
  {| LoggerSource.method := LoggerSource.channel (snd ec);
     LoggerSource.text :=
       JSON.stringify (LoggerSource.logObject (fst ec) (snd ec));
     LoggerSource.detail := None |}.

(** The request that posts the log object of a logger call. *)
Definition posted (ec : LoggerSource.Env * LoggerSource.Call)
  : LoggerSource.Request :=
  {| LoggerSource.request_url := "/api/client-logs";
     LoggerSource.request_method := "POST";
     LoggerSource.request_headers := [("Content-Type", "application/json")];
     LoggerSource.request_body :=
       JSON.stringify (LoggerSource.logObject (fst ec) (snd ec)) |}.

(** The console call that reports a post that failed. *)
Definition failure_report (err : JsVal) : LoggerSource.ConsoleCall :=
  {| LoggerSource.method := LoggerSource.console_error;
     LoggerSource.text := "Failed to send log to server:";
     LoggerSource.detail := Some err |}.

(** What a step writes to the console, and what it posts. *)
Definition console_of (step : LoggerStep) : LoggerSource.ConsoleCall :=
  match step with
  | LoggerCall env c => printed (env, c)
  | PostRejected err => failure_report err
  end.

Definition posts_of (step : LoggerStep) : list LoggerSource.Request :=
  match step with
  | LoggerCall env c =>
      if LoggerSource.isClient env then [posted (env, c)] else []
  | PostRejected _ => []
  end.

(** All numbers of a value are in the range that is written in plain
    digits. *)
Fixpoint plain_numbers (v : JsVal) : bool :=
  match v with
  | JNum n => Z.abs n <? 10 ^ 21
  | JArr l =>
      (fix all (l : list JsVal) : bool :=
         match l with
         | [] => true
         | x :: rest => plain_numbers x && all rest
         end) l
  | JObj l =>
      (fix all (l : list (string * JsVal)) : bool :=
         match l with
         | [] => true
         | (_, x) :: rest => plain_numbers x && all rest
         end) l
  | JNull | JBool _ | JStr _ => true
  end.

Definition in_range (step : LoggerStep) : bool :=
  match step with
  | LoggerCall env c => plain_numbers (LoggerSource.logObject env c)
  | PostRejected _ => true
  end.

(** Further concrete inputs. *)
Module Samples.

(** The session held in [Fixtures.signed_in], with its first two properties
    in the other order. *)
Definition reordered_session : JsVal :=
  JObj [("refresh_token", JStr "rt"); ("access_token", JStr "at");
        ("expires_in", JNum 3600); ("token_type", JStr "bearer");
        ("user", Fixtures.user_u1)].

Definition getSession_u1 : Response :=
  {| data := JObj [("session", Fixtures.session_of Fixtures.user_u1)];
     error := JNull |}.

(** A configuration whose [clientOptions] bring their own [fetch] and a
    schema. *)
Definition custom_fetch : ClientOptions.PluginConfig :=
  {| ClientOptions.base := Fixtures.config;
     ClientOptions.cookieOptions :=
       [("name", ClientOptions.OVal (JStr "ignored"));
        ("maxAge", ClientOptions.OVal (JNum 28800))];
     ClientOptions.clientOptions :=
       [("db", ClientOptions.OObj
                 [("schema", ClientOptions.OVal (JStr "public"))]);
        ("global", ClientOptions.OObj
                 [("fetch", ClientOptions.OFn (ClientOptions.custom "myFetch"));
                  ("headers", ClientOptions.OObj [])])] |}.

Definition visitor : LoggerSource.Browser :=
  {| LoggerSource.userAgent := "Mozilla/5.0";
     LoggerSource.language := "en-US";
     LoggerSource.innerWidth := 1280;
     LoggerSource.innerHeight := 720;
     LoggerSource.href := "https://app.example/";
     LoggerSource.referrer := "" |}.

Definition on_server : LoggerSource.Env :=
  {| LoggerSource.isClient := false;
     LoggerSource.timestamp := "2025-01-01T00:00:00.000Z";
     LoggerSource.browser := visitor |}.

Definition in_browser : LoggerSource.Env :=
  {| LoggerSource.isClient := true;
     LoggerSource.timestamp := "2025-01-01T00:00:00.000Z";
     LoggerSource.browser := visitor |}.

End Samples.

(** The logger call of the auth-event callback,
    [logger.info('Auth state changed', { event, session })], as a call of
    the logger in full. *)
Definition auth_state_changed_call (ev : ClientPlugin.AuthEvent)
  : LoggerSource.Call :=
  LoggerSource.Info "Auth state changed"
    (Some (JObj [("event", JStr (fst ev)); ("session", snd ev)])).

(* ================================================================= *)
(** * Properties *)

(* ----------------------------------------------------------------- *)
(** ** The serialization determines the value *)

Module JSONFacts.
Import JSON.

Lemma serialize_arr x rest :
  serialize (JArr (x :: rest)) = "["%char :: serialize x ++ more_items rest.
Proof. reflexivity. Qed.

Lemma serialize_obj k x rest :
  serialize (JObj ((k, x) :: rest)) =
  "{"%char :: quote k ++ ":"%char :: serialize x ++ more_members rest.
Proof. reflexivity. Qed.

Lemma unescape_escape c r : unescape_char (escape_char c ++ r) = Some (c, r).
Proof. destruct c as [[] [] [] [] [] [] [] []]; reflexivity. Qed.

Lemma escape_inj s1 : forall s2 r1 r2,
  escape s1 ++ dquote :: r1 = escape s2 ++ dquote :: r2 ->
  s1 = s2 /\ r1 = r2.
Proof.
  induction s1 as [|c1 s1 IH]; intros [|c2 s2] r1 r2 H; simpl in H.
  - injection H as ->. auto.
  - rewrite <- app_assoc in H. apply (f_equal unescape_char) in H.
    rewrite unescape_escape in H. discriminate.
  - rewrite <- app_assoc in H. apply (f_equal unescape_char) in H.
    rewrite unescape_escape in H. discriminate.
  - rewrite <- !app_assoc in H. apply (f_equal unescape_char) in H.
    rewrite !unescape_escape in H. injection H as -> H.
    destruct (IH _ _ _ H) as [-> ->]. auto.
Qed.

Lemma quote_inj s1 s2 r1 r2 :
  quote s1 ++ r1 = quote s2 ++ r2 -> s1 = s2 /\ r1 = r2.
Proof.
  unfold quote. simpl. rewrite <- !app_assoc. simpl.
  intros H. injection H as H. now apply escape_inj.
Qed.

Lemma digits_inj d1 : forall d2 r1 r2,
  delimited r1 -> delimited r2 ->
  digits d1 ++ r1 = digits d2 ++ r2 -> d1 = d2 /\ r1 = r2.
Proof.
  unfold digits.
  induction d1 as [|d1 IH|d1 IH|d1 IH|d1 IH|d1 IH|d1 IH|d1 IH|d1 IH|d1 IH|d1 IH];
    intros d2 r1 r2 D1 D2 H; destruct d2; simpl in H;
    try discriminate H;
    try (subst; simpl in *; discriminate);
    try (injection H as H; destruct (IH _ _ _ D1 D2 H) as [-> ->]; auto).
  auto.
Qed.


Lemma digits_nonnil_head d :
  d <> Decimal.Nil -> exists c tl, digits d = c :: tl /\ is_digit c = true.
Proof.
  destruct d; intros H; try congruence; unfold digits; simpl; eauto.
Qed.

Lemma number_pos_or_neg n :
  exists d, d <> Decimal.Nil /\
    ((Z.to_int n = Decimal.Pos d /\ number n = digits d) \/
     (Z.to_int n = Decimal.Neg d /\ number n = "-"%char :: digits d)).
Proof.
  unfold number, digits. destruct n as [|p|p]; simpl.
  - exists (Decimal.D0 Decimal.Nil). split; [discriminate | now left].
  - exists (Pos.to_uint p). split; [apply Unsigned.to_uint_nonnil |].
    left. split; [reflexivity|]. unfold NilZero.string_of_uint.
    destruct (Pos.to_uint p) eqn:E; try reflexivity.
    now apply Unsigned.to_uint_nonnil in E.
  - exists (Pos.to_uint p). split; [apply Unsigned.to_uint_nonnil |].
    right. split; [reflexivity|]. unfold NilZero.string_of_uint.
    destruct (Pos.to_uint p) eqn:E; try reflexivity.
    now apply Unsigned.to_uint_nonnil in E.
Qed.

Lemma number_head n :
  exists c tl, number n = c :: tl /\ number_start c = true.
Proof.
  destruct (number_pos_or_neg n) as (d & Hd & [[_ E]|[_ E]]); rewrite E.
  - destruct (digits_nonnil_head d Hd) as (c & tl & -> & Hc).
    exists c, tl. unfold number_start. now rewrite Hc.
  - eauto.
Qed.

Lemma Z_to_int_inj n1 n2 : Z.to_int n1 = Z.to_int n2 -> n1 = n2.
Proof.
  intros H. rewrite <- (DecimalZ.of_to n1), <- (DecimalZ.of_to n2).
  now rewrite H.
Qed.

Lemma number_inj n1 n2 r1 r2 :
  delimited r1 -> delimited r2 ->
  number n1 ++ r1 = number n2 ++ r2 -> n1 = n2 /\ r1 = r2.
Proof.
  intros D1 D2 H.
  destruct (number_pos_or_neg n1) as (d1 & N1 & [[I1 E1]|[I1 E1]]);
  destruct (number_pos_or_neg n2) as (d2 & N2 & [[I2 E2]|[I2 E2]]);
  rewrite E1, E2 in H; simpl in H.
  - destruct (digits_inj _ _ _ _ D1 D2 H) as [-> ->].
    split; [apply Z_to_int_inj; congruence | reflexivity].
  - destruct (digits_nonnil_head d1 N1) as (c & tl & E & Hc).
    rewrite E in H. simpl in H. injection H as -> _. discriminate.
  - destruct (digits_nonnil_head d2 N2) as (c & tl & E & Hc).
    rewrite E in H. simpl in H. injection H as <- _. discriminate.
  - injection H as H.
    destruct (digits_inj _ _ _ _ D1 D2 H) as [-> ->].
    split; [apply Z_to_int_inj; congruence | reflexivity].
Qed.

Lemma serialize_head v :
  exists c tl, serialize v = c :: tl /\ value_start c = true.
Proof.
  destruct v as [|[]|n|s|[|x l]|[|[k x] l]]; simpl; eauto.
  - destruct (number_head n) as (c & tl & -> & Hc).
    exists c, tl. split; [reflexivity|].
    unfold number_start, is_digit, value_start in *.
    destruct c as [[] [] [] [] [] [] [] []]; simpl in *; congruence.
  - unfold quote. eauto.
Qed.

Lemma more_items_delimited l r : delimited (more_items l ++ r).
Proof. destruct l; reflexivity. Qed.

Lemma more_members_delimited l r : delimited (more_members l ++ r).
Proof. destruct l as [|[k y] l]; reflexivity. Qed.

Lemma more_items_inj l :
  Forall injective_at l ->
  forall l2 r1 r2, more_items l ++ r1 = more_items l2 ++ r2 ->
    l = l2 /\ r1 = r2.
Proof.
  induction 1 as [|x l Hx _ IH]; intros [|y l2] r1 r2 H; simpl in H;
    try discriminate H.
  - injection H as ->. auto.
  - injection H as H. rewrite <- !app_assoc in H.
    destruct (Hx _ _ _ (more_items_delimited _ _) (more_items_delimited _ _) H)
      as [-> H'].
    destruct (IH _ _ _ H') as [-> ->]. auto.
Qed.

Lemma more_members_inj l :
  Forall (fun kv => injective_at (snd kv)) l ->
  forall l2 r1 r2, more_members l ++ r1 = more_members l2 ++ r2 ->
    l = l2 /\ r1 = r2.
Proof.
  induction 1 as [|[k x] l Hx _ IH]; intros [|[k2 y] l2] r1 r2 H;
    simpl in H; try discriminate H.
  - injection H as ->. auto.
  - injection H as H. rewrite <- !app_assoc in H. simpl in H.
    apply escape_inj in H. destruct H as [-> H].
    injection H as H. rewrite <- !app_assoc in H. simpl in Hx.
    destruct (Hx _ _ _ (more_members_delimited _ _)
                (more_members_delimited _ _) H) as [-> H'].
    destruct (IH _ _ _ H') as [-> ->]. auto.
Qed.

Lemma serialize_injective_at v : injective_at v.
Proof.
  induction v as [|b|n|s|l IH|l IH] using JsVal_nested_ind;
    intros v2 r1 r2 D1 D2 H.
  - destruct v2 as [|[]|n2|s2|[|y l2]|[|[k2 y] l2]]; simpl in H;
      try discriminate H.
    + injection H as ->. auto.
    + destruct (number_head n2) as (c & tl & E & Hc). rewrite E in H.
      injection H as <- _. discriminate.
  - destruct b;
      destruct v2 as [|[]|n2|s2|[|y l2]|[|[k2 y] l2]]; simpl in H;
      try discriminate H;
      try (injection H as ->; auto);
      destruct (number_head n2) as (c & tl & E & Hc); rewrite E in H;
      injection H as <- _; discriminate.
  - destruct (number_head n) as (c & tl & E & Hc).
    destruct v2 as [|[]|n2|s2|[|y l2]|[|[k2 y] l2]];
      try (simpl in H; rewrite E in H; simpl in H;
           injection H as -> _; discriminate).
    simpl in H. destruct (number_inj _ _ _ _ D1 D2 H) as [-> ->]. auto.
  - destruct v2 as [|[]|n2|s2|[|y l2]|[|[k2 y] l2]]; simpl in H;
      try discriminate H.
    + destruct (number_head n2) as (c & tl & E & Hc). rewrite E in H.
      injection H as <- _. discriminate.
    + injection H as H. rewrite <- !app_assoc in H. simpl in H.
      apply escape_inj in H. destruct H as [-> ->]. auto.
  - destruct v2 as [|[]|n2|s2|l2|l2];
      try (destruct l as [|x l]; simpl in H; discriminate H);
      try (destruct l as [|x l], l2 as [|[k2 y] l2]; simpl in H;
           discriminate H).
    + destruct (number_head n2) as (c & tl & E & Hc).
      destruct l as [|x l]; simpl in H; rewrite E in H;
        injection H as <- _; discriminate.
    + destruct l as [|x l], l2 as [|y l2].
      * simpl in H. injection H as ->. auto.
      * rewrite serialize_arr in H. simpl in H. injection H as H.
        destruct (serialize_head y) as (c & tl & E & Hc).
        rewrite E in H. simpl in H. injection H as <- _. discriminate.
      * rewrite serialize_arr in H. simpl in H. injection H as H.
        destruct (serialize_head x) as (c & tl & E & Hc).
        rewrite E in H. simpl in H. injection H as -> _. discriminate.
      * rewrite !serialize_arr in H. simpl in H. injection H as H.
        rewrite <- !app_assoc in H.
        inversion IH as [|? ? Hx Hl]; subst.
        destruct (Hx _ _ _ (more_items_delimited _ _)
                    (more_items_delimited _ _) H) as [-> H'].
        destruct (more_items_inj _ Hl _ _ _ H') as [-> ->]. auto.
  - destruct v2 as [|[]|n2|s2|l2|l2];
      try (destruct l as [|[k x] l]; simpl in H; discriminate H);
      try (destruct l as [|[k x] l], l2 as [|y l2]; simpl in H;
           discriminate H).
    + destruct (number_head n2) as (c & tl & E & Hc).
      destruct l as [|[k x] l]; simpl in H; rewrite E in H;
        injection H as <- _; discriminate.
    + destruct l as [|[k x] l], l2 as [|[k2 y] l2].
      * simpl in H. injection H as ->. auto.
      * simpl in H. discriminate H.
      * simpl in H. discriminate H.
      * rewrite !serialize_obj in H. simpl in H. injection H as H.
        rewrite <- !app_assoc in H. simpl in H.
        apply escape_inj in H. destruct H as [-> H].
        injection H as H. rewrite <- !app_assoc in H.
        inversion IH as [|? ? Hx Hl]; subst. simpl in Hx.
        destruct (Hx _ _ _ (more_members_delimited _ _)
                    (more_members_delimited _ _) H) as [-> H'].
        destruct (more_members_inj _ Hl _ _ _ H') as [-> ->]. auto.
Qed.

(** [JSON.stringify] tells any two values apart. *)
Theorem stringify_injective v1 v2 :
  stringify v1 = stringify v2 -> v1 = v2.
Proof.
  unfold stringify. intros H.
  apply (f_equal list_ascii_of_string) in H.
  rewrite !list_ascii_of_string_of_list_ascii in H.
  destruct (serialize_injective_at v1 v2 [] [] I I) as [E _]; [|exact E].
  now rewrite !app_nil_r.
Qed.

End JSONFacts.

(* ----------------------------------------------------------------- *)
(** ** Running the plugins symbolically *)

#[local] Arguments opt_member : simpl never.
#[local] Arguments get_prop : simpl never.
#[local] Arguments truthy_value : simpl never.
#[local] Arguments truthy_opt : simpl never.
#[local] Arguments truthy : simpl never.
#[local] Arguments strict_eq : simpl never.
#[local] Arguments coalesce_null : simpl never.
#[local] Arguments without_user : simpl never.
#[local] Arguments ClientPlugin.constructed_session : simpl never.
#[local] Arguments JSON.stringify : simpl never.
#[local] Arguments member : simpl never.

Lemma member_value {St} (v : JsVal) (k : string) :
  v <> JNull -> @member St (Some v) k = ret (get_prop v k).
Proof. destruct v; intros H; try reflexivity. contradiction. Qed.

Lemma member_cases {St} (o : option JsVal) (k : string) :
  @member St o k = throw TypeError \/
  (exists v, o = Some v /\ v <> JNull /\ @member St o k = ret (get_prop v k)).
Proof.
  destruct o as [[]|]; try (now left); right; eexists; repeat split;
    discriminate.
Qed.

Lemma opt_member_value (v : JsVal) (k : string) :
  opt_member (Some v) k = get_prop v k.
Proof. destruct v; reflexivity. Qed.

Lemma truthy_value_true (v : JsVal) :
  truthy v = true -> truthy_value (Some v) = Some v.
Proof. unfold truthy_value. now intros ->. Qed.

Lemma truthy_value_false (o : option JsVal) :
  truthy_opt o = false -> truthy_value o = None.
Proof.
  destruct o as [v|]; unfold truthy_opt, truthy_value; [|reflexivity].
  now intros ->.
Qed.

Lemma get_prop_not_null (v a : JsVal) (k : string) :
  get_prop v k = Some a -> v <> JNull.
Proof. intros H ->. discriminate. Qed.

Lemma logged_here (w w' : World) (l : list LogObject) (o : LogObject) :
  console w' = console w ++ l -> In o l -> logged w w' o.
Proof. intros H I. exists l. auto. Qed.

Ltac eff_unfold :=
  unfold ClientPlugin.setup, ClientPlugin.with_locals, ClientPlugin.publish,
    ClientPlugin.initialize, ClientPlugin.verify,
    ClientPlugin.onAuthStateChange, ServerPlugin.setup,
    ServerPlugin.all_caught, ServerPlugin.caught,
    ClientPlugin.lift, ClientPlugin.set_session, ClientPlugin.set_user,
    logger.info, logger.warn, logger.error, logger.emit,
    set_currentSession, set_currentUser, provide,
    try_catch, bind, ret, throw, get, modify, await,
    state_after, completes, pair_of in *.

(** One branching point of the program under execution. *)
Ltac eff_step :=
  match goal with
  | |- context [if truthy ?x then _ else _] =>
      destruct (truthy x) eqn:?; try discriminate; simpl
  | |- context [match truthy_value ?x with _ => _ end] =>
      destruct (truthy_value x) eqn:?; try discriminate; simpl
  | |- context [if negb ?b then _ else _] =>
      destruct b eqn:?; try discriminate; simpl
  | |- context [@member ?St ?o ?k] =>
      let v := fresh "v" in let E := fresh "E" in
      let N := fresh "N" in let M := fresh "M" in
      destruct (@member_cases St o k) as [M | (v & E & N & M)];
      rewrite M; simpl
  end.

Ltac eff_run := eff_unfold; simpl; repeat eff_step.

Ltac console_grows :=
  simpl; rewrite <- ?app_assoc; reflexivity.

(* ----------------------------------------------------------------- *)
(** ** The try block of the client plugin *)

(** Whether [verify] raises depends on the two provider results only. *)
Lemma verify_completion_frame gu gs now f f' :
  fst (ClientPlugin.verify gu gs now f) = fst (ClientPlugin.verify gu gs now f').
Proof.
  destruct gu as [r|e], gs as [r'|e']; try reflexivity.
  eff_run; reflexivity.
Qed.

(** [verify] writes to the console and to nothing else of the shared
    state. *)
Lemma verify_effects gu gs now f :
  let f' := snd (ClientPlugin.verify gu gs now f) in
  (exists l, console (ClientPlugin.world f')
             = console (ClientPlugin.world f) ++ l) /\
  writes (ClientPlugin.world f') = writes (ClientPlugin.world f) /\
  pair_of (ClientPlugin.world f') = pair_of (ClientPlugin.world f) /\
  provided (ClientPlugin.world f') = provided (ClientPlugin.world f).
Proof.
  destruct gu as [r|e], gs as [r'|e'];
    try (eff_unfold; simpl; repeat split; eexists; reflexivity).
  eff_run; repeat split; rewrite <- ?app_assoc; eexists; reflexivity.
Qed.

(** The try/catch always completes, and leaves a session in the local
    variables only together with a user. *)
Lemma initialize_locals gu gs now f :
  ClientPlugin.var_session f = JNull ->
  let res := ClientPlugin.initialize gu gs now f in
  fst res = Normal tt /\
  (ClientPlugin.var_user (snd res) = JNull ->
   ClientPlugin.var_session (snd res) = JNull).
Proof.
  intros Hs.
  destruct gu as [r|e], gs as [r'|e']; try (eff_unfold; simpl; auto; fail).
  eff_run; repeat split; auto; intros ->; discriminate.
Qed.

Lemma setup_null_safe (cfg : SupabaseConfig) (gu gs : Settled Response)
    (now : Z) (w : World) :
  let res := ClientPlugin.setup cfg gu gs now w in
  completes res = true /\ null_safe (state_after res).
Proof.
  cbv zeta.
  unfold ClientPlugin.setup, ClientPlugin.with_locals, ClientPlugin.publish,
    provide, bind, modify, state_after, completes, null_safe.
  match goal with
  | |- context [ClientPlugin.initialize gu gs now ?F] =>
      destruct (initialize_locals gu gs now F eq_refl) as (Hc & Hn);
      destruct (ClientPlugin.initialize gu gs now F) as [c f1]
  end.
  simpl in Hc, Hn. subst c. eff_unfold. simpl. auto.
Qed.

(* ----------------------------------------------------------------- *)
(** ** The auth-event callback *)

Lemma onAuthStateChange_completes k s w :
  fst (ClientPlugin.onAuthStateChange k s w) = Normal tt.
Proof. eff_unfold. simpl. destruct (negb _); reflexivity. Qed.

Lemma onAuthStateChange_null_safe k s w :
  typed_session s = true -> null_safe w ->
  null_safe (state_after (ClientPlugin.onAuthStateChange k s w)).
Proof.
  intros Ht Hw. unfold null_safe in *. eff_unfold. simpl.
  destruct (negb _); simpl; [|exact Hw].
  rewrite opt_member_value. intros Hu.
  destruct s; try reflexivity; unfold typed_session in Ht;
    destruct (get_prop _ "user") as [[]|]; try discriminate;
    unfold coalesce_null in Hu; discriminate.
Qed.

Lemma deliver_null_safe events : forall w,
  forallb (fun ev => typed_session (snd ev)) events = true ->
  null_safe w ->
  null_safe (state_after (ClientPlugin.deliver events w)) /\
  completes (ClientPlugin.deliver events w) = true.
Proof.
  induction events as [|[k s] rest IH]; intros w Ht Hw.
  - split; [exact Hw | reflexivity].
  - simpl in Ht. apply andb_prop in Ht. destruct Ht as [Hs Hr].
    pose proof (onAuthStateChange_null_safe k s w Hs Hw) as H1.
    pose proof (onAuthStateChange_completes k s w) as H2.
    cbn [ClientPlugin.deliver]. unfold bind.
    destruct (ClientPlugin.onAuthStateChange k s w) as [c w1].
    simpl in H1, H2. subst c. apply IH; assumption.
Qed.

(* ----------------------------------------------------------------- *)
(** ** Null safety *)

(** C1, as the server plugin refutes it: with SSR cookies enabled, a session
    retrieval that succeeds next to a user retrieval that fails leaves a
    non-null session beside a null user. *)
Lemma null_safety_server_counterexample :
  ~ null_safe (state_after
      (ServerPlugin.setup Fixtures.config
         (Fulfilled Fixtures.stored_session)
         (Rejected Fixtures.auth_error) ServerPlugin.session_first
         Fixtures.fresh)).
Proof.
  intros H. unfold null_safe in H. specialize (H eq_refl). discriminate.
Qed.

(** C1, amended: in the client plugin, after initialization and after any
    sequence of auth events whose sessions are [null] or carry a non-null
    [user], [user == null] implies [session == null]; setup and the
    delivery of the events complete. *)
Theorem null_safety_client (cfg : SupabaseConfig) (gu gs : Settled Response)
    (now : Z) (w : World) (events : list ClientPlugin.AuthEvent) :
  forallb (fun ev => typed_session (snd ev)) events = true ->
  let initialized := ClientPlugin.setup cfg gu gs now w in
  let final := ClientPlugin.deliver events (state_after initialized) in
  null_safe (state_after initialized) /\
  null_safe (state_after final) /\
  completes initialized = true /\
  completes final = true.
Proof.
  intros Ht. cbv zeta.
  destruct (setup_null_safe cfg gu gs now w) as [Hc Hn].
  destruct (deliver_null_safe events _ Ht Hn) as [Hn' Hc'].
  auto.
Qed.

Lemma null_safety_client_witness :
  let initialized := ClientPlugin.setup Fixtures.config
       (Fulfilled Fixtures.getUser_u1) (Fulfilled Fixtures.getSession_failed)
       1700000000000 Fixtures.fresh in
  let final := ClientPlugin.deliver Fixtures.events
       (state_after initialized) in
  null_safe (state_after initialized) /\
  null_safe (state_after final) /\
  completes initialized = true /\
  completes final = true.
Proof.
  apply (null_safety_client Fixtures.config
           (Fulfilled Fixtures.getUser_u1)
           (Fulfilled Fixtures.getSession_failed)
           1700000000000 Fixtures.fresh Fixtures.events).
  reflexivity.
Defined.

(** What the server plugin stores when SSR cookies are enabled: the outcome
    of each retrieval on its own, [null] for a failed one. *)
Lemma server_cells_independent (cfg : SupabaseConfig) (ss su : Settled JsVal)
    (first : ServerPlugin.Settlement) (w : World) :
  useSsrCookies cfg = true ->
  let res := ServerPlugin.setup cfg ss su first w in
  pair_of (state_after res) = (or_null ss, or_null su) /\
  completes res = true.
Proof.
  intros Hc. eff_unfold. rewrite Hc.
  destruct first, ss as [s|e], su as [u|e']; simpl;
    try destruct (truthy _ && truthy _); split; reflexivity.
Qed.

(* ----------------------------------------------------------------- *)
(** ** Client-side initialization *)

(** C2: when [getUser()] yields user [A] and [getSession()] a session whose
    user [B] has another [id], the published user is [A], the session is the
    payload without its [user], and the divergence is a warning on the
    console: setup completes and logs nothing at level ERROR. *)
Theorem divergence_preference (cfg : SupabaseConfig) (ru rs : Response)
    (A S B : JsVal) (now : Z) (w : World) :
  truthy (error ru) = false ->
  get_prop (data ru) "user" = Some A -> truthy A = true ->
  get_prop (data rs) "session" = Some S -> truthy S = true ->
  get_prop S "user" = Some B -> B <> JNull ->
  strict_eq (get_prop B "id") (get_prop A "id") = false ->
  let res := ClientPlugin.setup cfg (Fulfilled ru) (Fulfilled rs) now w in
  currentUser (state_after res) = A /\
  currentSession (state_after res) = without_user S /\
  completes res = true /\
  logged w (state_after res) (mismatch_warning A B) /\
  no_error_logged w (state_after res).
Proof.
  intros Hue HA HtA HS HtS HB HnB Hne.
  pose proof (get_prop_not_null _ _ _ HA) as HnU.
  eff_unfold. simpl.
  rewrite Hue, (member_value _ _ HnU), HA. simpl.
  rewrite (truthy_value_true _ HtA). simpl.
  rewrite !opt_member_value, HS, (truthy_value_true _ HtS). simpl.
  rewrite HB, opt_member_value, Hne, (member_value _ _ HnB). simpl.
  rewrite HtA. simpl.
  repeat split.
  - eapply logged_here; [console_grows|].
    simpl. unfold mismatch_warning. auto 10.
  - eexists. split; [console_grows|].
    simpl. repeat constructor; discriminate.
Qed.

Lemma divergence_preference_witness :
  let res := ClientPlugin.setup Fixtures.config
               (Fulfilled Fixtures.getUser_u1)
               (Fulfilled Fixtures.getSession_u2) 1700000000000
               Fixtures.fresh in
  currentUser (state_after res) = Fixtures.user_u1 /\
  currentSession (state_after res) = Fixtures.stored_session /\
  completes res = true /\
  logged Fixtures.fresh (state_after res)
    (mismatch_warning Fixtures.user_u1 Fixtures.user_u2) /\
  no_error_logged Fixtures.fresh (state_after res).
Proof.
  apply (divergence_preference Fixtures.config Fixtures.getUser_u1
           Fixtures.getSession_u2 Fixtures.user_u1
           (Fixtures.session_of Fixtures.user_u2) Fixtures.user_u2
           1700000000000 Fixtures.fresh);
    try reflexivity.
  discriminate.
Defined.

(** C3, as a rejected [getSession()] refutes it: [getUser()] has yielded a
    user, but since both calls are awaited in one try block the rejection
    reaches the catch and [{ session: null, user: null }] is published, not
    the user with a constructed session. *)
Lemma placeholder_synthesis_counterexample :
  let res := ClientPlugin.setup Fixtures.config
               (Fulfilled Fixtures.getUser_u1)
               (Rejected Fixtures.auth_error) 1700000000000
               Fixtures.fresh in
  pair_of (state_after res) = (JNull, JNull) /\
  ~ (currentUser (state_after res) = Fixtures.user_u1 /\
     currentSession (state_after res)
     = ClientPlugin.constructed_session 1700000000000).
Proof.
  split; [reflexivity|]. intros [H _]. vm_compute in H. discriminate H.
Qed.

(** C3, amended: when [getUser()] yields a user and [getSession()] resolves
    with an error payload or without a session, the user is kept and the
    session is the constructed one: empty access and refresh tokens, token
    type [bearer], and an expiry one hour (3600 s) after the current time;
    nothing is logged at level ERROR.  When [getSession()] rejects instead,
    [{ session: null, user: null }] is published. *)
Theorem placeholder_synthesis (cfg : SupabaseConfig) (ru rs : Response)
    (A : JsVal) (now : Z) (w : World) :
  truthy (error ru) = false ->
  get_prop (data ru) "user" = Some A -> truthy A = true ->
  truthy_opt (opt_member (Some (data rs)) "session") = false ->
  let res := ClientPlugin.setup cfg (Fulfilled ru) (Fulfilled rs) now w in
  let s := currentSession (state_after res) in
  (currentUser (state_after res) = A /\
   s = ClientPlugin.constructed_session now /\
   get_prop s "access_token" = Some (JStr "") /\
   get_prop s "refresh_token" = Some (JStr "") /\
   get_prop s "token_type" = Some (JStr "bearer") /\
   get_prop s "expires_in" = Some (JNum 3600) /\
   get_prop s "expires_at" = Some (JNum (now / 1000 + 3600)) /\
   completes res = true /\
   no_error_logged w (state_after res)) /\
  (forall e,
     pair_of (state_after
                (ClientPlugin.setup cfg (Fulfilled ru) (Rejected e) now w))
     = (JNull, JNull)).
Proof.
  intros Hue HA HtA HS.
  pose proof (get_prop_not_null _ _ _ HA) as HnU.
  split; [|intros e; reflexivity].
  eff_unfold. simpl.
  rewrite Hue, (member_value _ _ HnU), HA. simpl.
  rewrite (truthy_value_true _ HtA). simpl.
  rewrite (truthy_value_false _ HS). simpl.
  rewrite HtA. simpl.
  repeat split.
  eexists. split; [console_grows|].
  simpl. repeat constructor; discriminate.
Qed.

Lemma placeholder_synthesis_witness :
  let res := ClientPlugin.setup Fixtures.config
               (Fulfilled Fixtures.getUser_u1)
               (Fulfilled Fixtures.getSession_failed) 1700000000000
               Fixtures.fresh in
  pair_of (state_after res)
  = (JObj [("access_token", JStr ""); ("refresh_token", JStr "");
           ("expires_in", JNum 3600); ("expires_at", JNum 1700003600);
           ("token_type", JStr "bearer")],
     JObj [("id", JStr "u1")]) /\
  get_prop (currentSession (state_after res)) "access_token"
    = Some (JStr "") /\
  get_prop (currentSession (state_after res)) "expires_at"
    = Some (JNum 1700003600).
Proof.
  pose proof (placeholder_synthesis Fixtures.config Fixtures.getUser_u1
                Fixtures.getSession_failed Fixtures.user_u1 1700000000000
                Fixtures.fresh eq_refl eq_refl eq_refl eq_refl) as H.
  cbv zeta in H. destruct H as ((Hu & Hs & Ha & _ & _ & _ & He & _) & _).
  cbv zeta. split; [|split; assumption].
  unfold pair_of. rewrite Hu, Hs. reflexivity.
Defined.

(** C4: when [getUser()] comes back with an error or without a user, then
    whatever [getSession()] settles to, the published pair is
    [{ session: null, user: null }], setup completes, and the console
    records it: the entry "No active user found" or an entry at level ERROR,
    and the error of [getUser()] itself whenever [getSession()] resolved. *)
Theorem getUser_failure_outcome (cfg : SupabaseConfig) (r : Response)
    (getSession : Settled Response) (now : Z) (w : World) :
  truthy (error r) = true \/
  truthy_opt (opt_member (Some (data r)) "user") = false ->
  let res := ClientPlugin.setup cfg (Fulfilled r) getSession now w in
  pair_of (state_after res) = (JNull, JNull) /\
  completes res = true /\
  (exists o, logged w (state_after res) o /\
             (o = no_active_user \/ log_level o = ERROR)) /\
  (forall r', getSession = Fulfilled r' -> truthy (error r) = true ->
     logged w (state_after res) (verification_error (error r))).
Proof.
  intros H. destruct getSession as [r'|e'].
  - destruct (truthy (error r)) eqn:Te.
    + eff_unfold. simpl. rewrite Te. simpl.
      repeat split.
      * exists no_active_user. split; [|now left].
        eapply logged_here; [console_grows|]. simpl. auto.
      * intros _ _ _.
        eapply logged_here; [console_grows|].
        simpl. unfold verification_error. rewrite Te. auto 10.
    + destruct H as [H|H]; [discriminate|].
      eff_unfold. simpl. rewrite Te.
      destruct (@member_cases ClientPlugin.Frame (Some (data r)) "user")
        as [M | (v & E & N & M)]; rewrite M; simpl.
      * repeat split; [|discriminate].
        exists (initialization_error TypeError). split; [|now right].
        eapply logged_here; [console_grows|]. simpl. auto 10.
      * injection E as <-. rewrite opt_member_value in H.
        rewrite (truthy_value_false _ H). simpl. rewrite ?Te. simpl.
        repeat split; [|discriminate].
        exists no_active_user. split; [|now left].
        eapply logged_here; [console_grows|]. simpl. auto.
  - eff_unfold. simpl. repeat split; [|discriminate].
    exists (initialization_error e'). split; [|now right].
    eapply logged_here; [console_grows|]. simpl. auto.
Qed.

Lemma getUser_failure_outcome_witness :
  let res := ClientPlugin.setup Fixtures.config
               (Fulfilled Fixtures.getUser_failed)
               (Fulfilled Fixtures.getSession_failed) 1700000000000
               Fixtures.signed_in in
  pair_of (state_after res) = (JNull, JNull) /\
  completes res = true /\
  logged Fixtures.signed_in (state_after res)
    (verification_error Fixtures.auth_error).
Proof.
  pose proof (getUser_failure_outcome Fixtures.config Fixtures.getUser_failed
                (Fulfilled Fixtures.getSession_failed) 1700000000000
                Fixtures.signed_in (or_introl eq_refl)) as H.
  cbv zeta in H. destruct H as (Hp & Hc & _ & Hl).
  cbv zeta. repeat split; try assumption.
  exact (Hl Fixtures.getSession_failed eq_refl eq_refl).
Defined.

(** C5: when the try block raises, the exception is caught, the published
    pair is [{ session: null, user: null }] whatever the local variables
    held when it was raised, the error is written to the console, and setup
    completes. *)
Theorem atomic_reset (cfg : SupabaseConfig) (gu gs : Settled Response)
    (now : Z) (w : World) (f : ClientPlugin.Frame) (e : JsVal) :
  fst (ClientPlugin.verify gu gs now f) = Abrupt e ->
  let res := ClientPlugin.setup cfg gu gs now w in
  pair_of (state_after res) = (JNull, JNull) /\
  completes res = true /\
  logged w (state_after res) (initialization_error e).
Proof.
  intros H. cbv zeta.
  unfold ClientPlugin.setup, ClientPlugin.with_locals, ClientPlugin.initialize,
    ClientPlugin.publish, provide, try_catch, bind, modify, state_after,
    completes.
  match goal with
  | |- context [ClientPlugin.verify gu gs now ?F] =>
      rewrite (verify_completion_frame gu gs now f F) in H;
      destruct (verify_effects gu gs now F) as ((l & Hl) & _);
      destruct (ClientPlugin.verify gu gs now F) as [c f1]
  end.
  simpl in H, Hl. subst c. eff_unfold. simpl. repeat split.
  eapply logged_here; [simpl; rewrite Hl; simpl; rewrite <- app_assoc;
                       reflexivity|].
  apply in_or_app. right. left. reflexivity.
Qed.

(** The try block at work on a session payload without [user]: it raises
    after the local [user] has been assigned. *)
Example verify_raises_with_user_assigned :
  let f := {| ClientPlugin.world := Fixtures.fresh;
              ClientPlugin.var_session := JNull;
              ClientPlugin.var_user := JNull |} in
  let res := ClientPlugin.verify (Fulfilled Fixtures.getUser_u1)
               (Fulfilled Fixtures.getSession_without_user)
               1700000000000 f in
  fst res = Abrupt TypeError /\
  ClientPlugin.var_user (snd res) = Fixtures.user_u1.
Proof. split; reflexivity. Qed.

Lemma atomic_reset_witness :
  let res := ClientPlugin.setup Fixtures.config
               (Fulfilled Fixtures.getUser_u1)
               (Fulfilled Fixtures.getSession_without_user) 1700000000000
               Fixtures.signed_in in
  pair_of (state_after res) = (JNull, JNull) /\
  completes res = true /\
  logged Fixtures.signed_in (state_after res)
    (initialization_error TypeError).
Proof.
  apply (atomic_reset Fixtures.config (Fulfilled Fixtures.getUser_u1)
           (Fulfilled Fixtures.getSession_without_user) 1700000000000
           Fixtures.signed_in
           {| ClientPlugin.world := Fixtures.fresh;
              ClientPlugin.var_session := JNull;
              ClientPlugin.var_user := JNull |}
           TypeError).
  reflexivity.
Defined.

(* ----------------------------------------------------------------- *)
(** ** Auth events *)

(** C6, as a session with its properties in another order refutes it: the
    incoming session is deep-structurally equal to the held one, yet the
    callback assigns both cells again. *)
Lemma idempotent_event_counterexample :
  ~ (deep_equal (currentSession Fixtures.signed_in)
       Samples.reordered_session = true ->
     let w' := state_after
         (ClientPlugin.onAuthStateChange "TOKEN_REFRESHED"
            Samples.reordered_session Fixtures.signed_in) in
     pair_of w' = pair_of Fixtures.signed_in /\
     writes w' = writes Fixtures.signed_in).
Proof.
  intros H. destruct (H eq_refl) as [_ Hw].
  vm_compute in Hw. discriminate Hw.
Qed.

(** C6, amended: an event whose session has the same JSON text as the held
    one (the same properties with the same values in the same order) writes
    neither cell; and whatever an event did, the same session delivered
    again writes neither cell. *)
Theorem idempotent_event (k k' : string) (s : JsVal) (w : World) :
  let once := state_after (ClientPlugin.onAuthStateChange k s w) in
  let twice := state_after (ClientPlugin.onAuthStateChange k' s once) in
  (JSON.stringify s = JSON.stringify (currentSession w) ->
   pair_of once = pair_of w /\ writes once = writes w) /\
  (pair_of twice = pair_of once /\ writes twice = writes once).
Proof.
  eff_unfold. simpl. split.
  - intros E. rewrite <- E, String.eqb_refl. simpl. auto.
  - destruct (String.eqb (JSON.stringify (currentSession w))
                         (JSON.stringify s)) eqn:E; simpl.
    + rewrite E. simpl. auto.
    + rewrite String.eqb_refl. simpl. auto.
Qed.

Lemma idempotent_event_witness :
  let once := state_after
      (ClientPlugin.onAuthStateChange "TOKEN_REFRESHED"
         (Fixtures.session_of Fixtures.user_u1) Fixtures.signed_in) in
  pair_of once
  = (Fixtures.session_of Fixtures.user_u1, Fixtures.user_u1) /\
  writes once = [].
Proof.
  apply (proj1 (idempotent_event "TOKEN_REFRESHED" "TOKEN_REFRESHED"
                  (Fixtures.session_of Fixtures.user_u1)
                  Fixtures.signed_in)).
  reflexivity.
Defined.

(** C7: an event whose session differs from the held one replaces the
    session cell by it and the user cell by the value of its [user]
    property, or by [null] when it has none; a [null] session leaves
    [{ session: null, user: null }]. *)
Theorem event_update (k : string) (s : JsVal) (w : World) :
  currentSession w <> s ->
  let w' := state_after (ClientPlugin.onAuthStateChange k s w) in
  currentSession w' = s /\
  (forall u, get_prop s "user" = Some u -> currentUser w' = u) /\
  (get_prop s "user" = None -> currentUser w' = JNull) /\
  (s = JNull -> pair_of w' = (JNull, JNull)).
Proof.
  intros H. eff_unfold. simpl.
  destruct (String.eqb (JSON.stringify (currentSession w))
                       (JSON.stringify s)) eqn:E.
  - apply String.eqb_eq in E. apply JSONFacts.stringify_injective in E.
    contradiction.
  - simpl. rewrite opt_member_value. repeat split.
    + intros u Hu. rewrite Hu. reflexivity.
    + intros Hu. rewrite Hu. reflexivity.
    + intros ->. reflexivity.
Qed.

Lemma event_update_witness :
  pair_of (state_after
    (ClientPlugin.onAuthStateChange "SIGNED_IN"
       (JObj [("access_token", JStr "at2"); ("refresh_token", JStr "rt2");
              ("expires_in", JNum 3600); ("token_type", JStr "bearer");
              ("user", JObj [("id", JStr "u2")])])
       Fixtures.signed_in))
  = (JObj [("access_token", JStr "at2"); ("refresh_token", JStr "rt2");
           ("expires_in", JNum 3600); ("token_type", JStr "bearer");
           ("user", JObj [("id", JStr "u2")])],
     JObj [("id", JStr "u2")]) /\
  pair_of (state_after
    (ClientPlugin.onAuthStateChange "SIGNED_OUT" JNull Fixtures.signed_in))
  = (JNull, JNull).
Proof.
  split.
  - destruct (event_update "SIGNED_IN"
       (JObj [("access_token", JStr "at2"); ("refresh_token", JStr "rt2");
              ("expires_in", JNum 3600); ("token_type", JStr "bearer");
              ("user", JObj [("id", JStr "u2")])])
       Fixtures.signed_in) as (Hs & Hu & _).
    + discriminate.
    + cbv zeta in Hs, Hu. unfold pair_of.
      rewrite Hs, (Hu (JObj [("id", JStr "u2")]) eq_refl). reflexivity.
  - apply (event_update "SIGNED_OUT" JNull Fixtures.signed_in).
    + discriminate.
    + reflexivity.
Defined.

(** C9: two events with the same session and any two event kinds, applied
    to the same state, leave the same pair and make the same writes. *)
Theorem eventKind_noninterference (k1 k2 : string) (s : JsVal) (w : World) :
  let w1 := state_after (ClientPlugin.onAuthStateChange k1 s w) in
  let w2 := state_after (ClientPlugin.onAuthStateChange k2 s w) in
  pair_of w1 = pair_of w2 /\ writes w1 = writes w2.
Proof.
  eff_unfold. simpl.
  destruct (negb _); simpl; auto.
Qed.

(* ----------------------------------------------------------------- *)
(** ** Server-side initialization *)

(** C10: with [useSsrCookies] off, the server plugin writes neither cell; it
    provides the client it created and completes. *)
Theorem server_gate (cfg : SupabaseConfig) (ss su : Settled JsVal)
    (first : ServerPlugin.Settlement) (w : World) :
  useSsrCookies cfg = false ->
  let res := ServerPlugin.setup cfg ss su first w in
  writes (state_after res) = writes w /\
  pair_of (state_after res) = pair_of w /\
  provided (state_after res) =
    provided w ++ [("supabase", ServerPlugin.createServerClient cfg)] /\
  completes res = true.
Proof.
  intros H. eff_unfold. simpl. rewrite H. simpl. auto.
Qed.

Lemma server_gate_witness :
  let res := ServerPlugin.setup Fixtures.config_no_ssr
               (Fulfilled Fixtures.stored_session)
               (Fulfilled Fixtures.user_u1) ServerPlugin.session_first
               Fixtures.fresh in
  writes (state_after res) = [] /\
  pair_of (state_after res) = (JNull, JNull) /\
  provided (state_after res) =
    [("supabase", ServerPlugin.createServerClient Fixtures.config_no_ssr)] /\
  completes res = true.
Proof.
  apply (server_gate Fixtures.config_no_ssr
           (Fulfilled Fixtures.stored_session) (Fulfilled Fixtures.user_u1)
           ServerPlugin.session_first Fixtures.fresh).
  reflexivity.
Defined.

(* ----------------------------------------------------------------- *)
(** ** Retrying transport *)

Section Retry.
Import RetryingTransport.

Variable network : nat -> Attempt.

Lemma loop_all_retryable :
  (forall i, classify (network i) = Retryable) ->
  forall left i delay,
    attempts (loop left i delay network) = left /\
    failed (loop left i delay network) = true /\
    List.length (delays (loop left i delay network)) = Nat.pred left.
Proof.
  intros H. induction left as [|left IH]; intros i delay.
  - repeat split.
  - cbn [loop]. rewrite H. destruct left as [|left'].
    + repeat split.
    + destruct (IH (S i) (2 * delay)) as (Ha & Hf & Hd).
      cbn [attempts failed result delays List.length]. rewrite Ha, Hd.
      repeat split. exact Hf.
Qed.
End Retry.

(** C8: with maximum attempt count [N], a call whose every attempt fails
    with a retryable error is attempted exactly [N] times and then fails;
    a call whose first attempt fails with a terminal error is attempted
    exactly once and fails with that error, without any backoff. *)
Theorem retry_bound (N : nat) (base : Z)
    (network : nat -> RetryingTransport.Attempt) :
  ((forall i, RetryingTransport.classify (network i)
              = RetryingTransport.Retryable) ->
   RetryingTransport.attempts
     (RetryingTransport.fetchWithRetry N base network) = N /\
   RetryingTransport.failed
     (RetryingTransport.fetchWithRetry N base network) = true) /\
  ((1 <= N)%nat ->
   RetryingTransport.classify (network 0%nat) = RetryingTransport.Terminal ->
   RetryingTransport.attempts
     (RetryingTransport.fetchWithRetry N base network) = 1%nat /\
   RetryingTransport.result
     (RetryingTransport.fetchWithRetry N base network)
     = RetryingTransport.Failure (Some (network 0%nat)) /\
   RetryingTransport.delays
     (RetryingTransport.fetchWithRetry N base network) = []).
Proof.
  split.
  - intros H.
    destruct (loop_all_retryable network H N 0%nat base) as (Ha & Hf & _).
    split; assumption.
  - intros HN Ht. unfold RetryingTransport.fetchWithRetry.
    destruct N as [|N]; [lia|].
    cbn [RetryingTransport.loop]. rewrite Ht. repeat split.
Qed.

Lemma retry_bound_witness :
  let always s := fun _ : nat => RetryingTransport.Responded s in
  (RetryingTransport.attempts
     (RetryingTransport.fetchWithRetry 4 100 (always 503)) = 4%nat /\
   RetryingTransport.failed
     (RetryingTransport.fetchWithRetry 4 100 (always 503)) = true) /\
  (RetryingTransport.attempts
     (RetryingTransport.fetchWithRetry 4 100 (always 404)) = 1%nat /\
   RetryingTransport.result
     (RetryingTransport.fetchWithRetry 4 100 (always 404))
     = RetryingTransport.Failure (Some (RetryingTransport.Responded 404)) /\
   RetryingTransport.delays
     (RetryingTransport.fetchWithRetry 4 100 (always 404)) = []).
Proof.
  intros always. split.
  - apply (proj1 (retry_bound 4 100 (always 503))).
    intros i. reflexivity.
  - apply (proj2 (retry_bound 4 100 (always 404))).
    + lia.
    + reflexivity.
Defined.

(** Scenario 3 of the specification: three 503 responses, then a 200, with
    four attempts allowed. *)
Example retry_then_success :
  let network i :=
    if (i <? 3)%nat then RetryingTransport.Responded 503
    else RetryingTransport.Responded 200 in
  RetryingTransport.result (RetryingTransport.fetchWithRetry 4 100 network)
    = RetryingTransport.Response (RetryingTransport.Responded 200) /\
  RetryingTransport.attempts (RetryingTransport.fetchWithRetry 4 100 network)
    = 4%nat /\
  RetryingTransport.delays (RetryingTransport.fetchWithRetry 4 100 network)
    = [100; 200; 400].
Proof. repeat split. Qed.

(* ================================================================= *)
(** * Further properties of the plugins *)

(* ----------------------------------------------------------------- *)
(** ** Removing the user of a session *)

Lemma assoc_remove_key_same k l : assoc k (remove_key k l) = None.
Proof.
  induction l as [|[k' v] l IH]; simpl; [reflexivity|].
  destruct (String.eqb k k') eqn:E; [exact IH|]. simpl. now rewrite E.
Qed.

Lemma assoc_remove_key_other k k' l :
  k' <> k -> assoc k' (remove_key k l) = assoc k' l.
Proof.
  intros Hne. induction l as [|[k0 v] l IH]; simpl; [reflexivity|].
  destruct (String.eqb k k0) eqn:E.
  - apply String.eqb_eq in E. subst k0.
    destruct (String.eqb k' k) eqn:E'; [|exact IH].
    apply String.eqb_eq in E'. contradiction.
  - simpl. now rewrite IH.
Qed.

Lemma remove_key_idem k l : remove_key k (remove_key k l) = remove_key k l.
Proof.
  induction l as [|[k' v] l IH]; simpl; [reflexivity|].
  destruct (String.eqb k k') eqn:E; [exact IH|]. simpl. now rewrite E, IH.
Qed.

Lemma without_user_no_user (v : JsVal) :
  get_prop (without_user v) "user" = None.
Proof. unfold without_user, get_prop. apply assoc_remove_key_same. Qed.

(** X1: the rest pattern that takes [user] out of a session object removes
    that property and no other: every other property reads as before, and
    taking [user] out again changes nothing. *)
Theorem without_user_properties (l : list (string * JsVal)) :
  get_prop (without_user (JObj l)) "user" = None /\
  (forall k, k <> "user" ->
     get_prop (without_user (JObj l)) k = get_prop (JObj l) k) /\
  without_user (without_user (JObj l)) = without_user (JObj l).
Proof.
  unfold without_user, get_prop. cbn [own_entries]. repeat split.
  - apply assoc_remove_key_same.
  - intros k Hk. now apply assoc_remove_key_other.
  - now rewrite remove_key_idem.
Qed.

Lemma without_user_properties_witness :
  get_prop (without_user (Fixtures.session_of Fixtures.user_u1)) "user"
    = None /\
  get_prop (without_user (Fixtures.session_of Fixtures.user_u1))
    "access_token" = Some (JStr "at").
Proof.
  destruct (without_user_properties
              [("access_token", JStr "at"); ("refresh_token", JStr "rt");
               ("expires_in", JNum 3600); ("token_type", JStr "bearer");
               ("user", Fixtures.user_u1)]) as (H1 & H2 & _).
  split; [exact H1|]. unfold Fixtures.session_of.
  rewrite (H2 "access_token"); [reflexivity | discriminate].
Defined.

(** X2: the constructed session expires at most one hour after the time
    [Date.now()] it was built at, and less than a second short of it. *)
Theorem constructed_session_expiry (now : Z) :
  exists expires_at,
    get_prop (ClientPlugin.constructed_session now) "expires_at"
      = Some (JNum expires_at) /\
    now + 3599000 < 1000 * expires_at <= now + 3600000.
Proof.
  exists (now / 1000 + 3600). split; [reflexivity|].
  pose proof (Z.mod_pos_bound now 1000 ltac:(lia)).
  pose proof (Z.div_mod now 1000 ltac:(lia)). lia.
Qed.

(* ----------------------------------------------------------------- *)
(** ** What client-side initialization publishes *)

Lemma truthy_value_some (o : option JsVal) (v : JsVal) :
  truthy_value o = Some v -> o = Some v /\ truthy v = true.
Proof.
  destruct o as [x|]; unfold truthy_value; [|discriminate].
  destruct (truthy x) eqn:E; [|discriminate]. intros H. injection H as <-. auto.
Qed.

Lemma truthy_value_none (o : option JsVal) :
  truthy_value o = None -> truthy_opt o = false.
Proof.
  destruct o as [x|]; unfold truthy_value, truthy_opt; [|reflexivity].
  destruct (truthy x); [discriminate|reflexivity].
Qed.

Lemma member_nullish {St} (o : option JsVal) (k : string) :
  o = None \/ o = Some JNull -> @member St o k = throw TypeError.
Proof. intros [-> | ->]; reflexivity. Qed.

Ltac eff_facts :=
  repeat match goal with
  | H : truthy_value _ = Some _ |- _ =>
      apply truthy_value_some in H; destruct H
  | H : truthy_value _ = None |- _ => apply truthy_value_none in H
  | H : Some _ = Some _ |- _ => injection H as H; subst
  end;
  rewrite ?opt_member_value in *.

(** Evaluation of the effects, leaving the values alone. *)
Ltac eff_cbv :=
  cbv beta iota zeta delta
    [ServerPlugin.setup ServerPlugin.all_caught ServerPlugin.caught
     logger.info logger.warn
     logger.error logger.emit set_currentSession set_currentUser provide
     try_catch bind ret throw get modify await state_after completes pair_of
     fst snd writes provided console currentSession currentUser].

Lemma initialize_reconciled gu gs now f :
  ClientPlugin.var_session f = JNull -> ClientPlugin.var_user f = JNull ->
  let f' := snd (ClientPlugin.initialize gu gs now f) in
  reconciled gu gs now (ClientPlugin.var_session f') (ClientPlugin.var_user f').
Proof.
  intros Hs Hu. unfold reconciled.
  destruct gu as [r|e], gs as [r'|e']; try (eff_unfold; simpl; auto; fail).
  eff_run; auto; eff_facts; try congruence.
  all: right; exists r; repeat (split; [eassumption || reflexivity|]);
    exists r'; split; [reflexivity|];
    solve [ left; eexists; repeat split; eassumption
          | right; split; [assumption | reflexivity] ].
Qed.

Lemma initialize_effects gu gs now f :
  let f' := snd (ClientPlugin.initialize gu gs now f) in
  writes (ClientPlugin.world f') = writes (ClientPlugin.world f) /\
  provided (ClientPlugin.world f') = provided (ClientPlugin.world f) /\
  pair_of (ClientPlugin.world f') = pair_of (ClientPlugin.world f).
Proof.
  cbv zeta. unfold ClientPlugin.initialize, try_catch.
  destruct (verify_effects gu gs now f) as (_ & Hw & Hp & Hq).
  destruct (ClientPlugin.verify gu gs now f) as [[a|e] f1]; simpl in *.
  - auto.
  - eff_unfold. simpl. unfold pair_of in *. auto.
Qed.

(** The locals after the try/catch do not depend on the shared state. *)
Lemma initialize_locals_frame gu gs now f f' :
  ClientPlugin.var_session f = ClientPlugin.var_session f' ->
  ClientPlugin.var_user f = ClientPlugin.var_user f' ->
  ClientPlugin.var_session (snd (ClientPlugin.initialize gu gs now f))
  = ClientPlugin.var_session (snd (ClientPlugin.initialize gu gs now f')) /\
  ClientPlugin.var_user (snd (ClientPlugin.initialize gu gs now f))
  = ClientPlugin.var_user (snd (ClientPlugin.initialize gu gs now f')).
Proof.
  intros Hs Hu.
  destruct gu as [r|e], gs as [r'|e']; try (eff_unfold; simpl; auto; fail).
  eff_run; auto.
Qed.

(** What [setup] leaves behind, in terms of what the try/catch leaves in the
    two local variables. *)
Lemma setup_publishes cfg gu gs now w :
  exists session user,
    reconciled gu gs now session user /\
    pair_of (state_after (ClientPlugin.setup cfg gu gs now w))
      = (session, user) /\
    writes (state_after (ClientPlugin.setup cfg gu gs now w))
      = writes w ++ [(SessionCell, session); (UserCell, user)] /\
    provided (state_after (ClientPlugin.setup cfg gu gs now w))
      = provided w ++
        [("supabase", if useSsrCookies cfg
                      then ClientPlugin.createBrowserClient cfg
                      else ClientPlugin.createClient cfg)] /\
    completes (ClientPlugin.setup cfg gu gs now w) = true.
Proof.
  unfold ClientPlugin.setup, ClientPlugin.with_locals, ClientPlugin.publish,
    provide, bind, modify, state_after, completes.
  match goal with
  | |- context [ClientPlugin.initialize gu gs now ?F] =>
      pose proof (initialize_reconciled gu gs now F eq_refl eq_refl) as Hr;
      destruct (initialize_effects gu gs now F) as (Hw & Hp & _);
      destruct (initialize_locals gu gs now F eq_refl) as (Hc & _);
      destruct (ClientPlugin.initialize gu gs now F) as [c f1]
  end.
  simpl in Hr, Hw, Hp, Hc. subst c.
  exists (ClientPlugin.var_session f1), (ClientPlugin.var_user f1).
  eff_unfold. simpl. rewrite Hw, Hp, <- app_assoc. simpl. auto.
Qed.

(** X3: whatever the two provider calls settle to, client setup completes,
    provides one client under [supabase] (the browser client exactly when SSR
    cookies are on), and assigns each cell exactly once, the session cell
    first. *)
Theorem publish_once (cfg : SupabaseConfig) (gu gs : Settled Response)
    (now : Z) (w : World) :
  let res := ClientPlugin.setup cfg gu gs now w in
  writes (state_after res)
    = writes w ++ [(SessionCell, currentSession (state_after res));
                   (UserCell, currentUser (state_after res))] /\
  provided (state_after res)
    = provided w ++
      [("supabase", if useSsrCookies cfg
                    then ClientPlugin.createBrowserClient cfg
                    else ClientPlugin.createClient cfg)] /\
  completes res = true.
Proof.
  cbv zeta.
  destruct (setup_publishes cfg gu gs now w) as (s & u & _ & Hp & Hw & Hq & Hc).
  unfold pair_of in Hp. injection Hp as Hs Hu. rewrite Hs, Hu. auto.
Qed.

(** X4: after client-side initialization the two cells are [null] together
    or not at all: the session is [null] exactly when the user is. *)
Theorem session_and_user_together (cfg : SupabaseConfig)
    (gu gs : Settled Response) (now : Z) (w : World) :
  let w' := state_after (ClientPlugin.setup cfg gu gs now w) in
  currentSession w' = JNull <-> currentUser w' = JNull.
Proof.
  cbv zeta.
  destruct (setup_publishes cfg gu gs now w) as (s & u & Hr & Hp & _).
  unfold pair_of in Hp. injection Hp as Hs Hu. rewrite ?Hs, ?Hu.
  destruct Hr as [[-> ->] | (ru & _ & _ & _ & Ht & rs & _ &
                             [(S & _ & _ & ->) | [_ ->]])].
  - tauto.
  - split; [discriminate | intros E; rewrite E in Ht; discriminate].
  - split; [discriminate | intros E; rewrite E in Ht; discriminate].
Qed.

Lemma session_and_user_together_witness :
  currentUser (state_after (ClientPlugin.setup Fixtures.config
     (Fulfilled Fixtures.getUser_failed) (Fulfilled Fixtures.getSession_u2)
     1700000000000 Fixtures.signed_in)) = JNull.
Proof.
  apply (proj1 (session_and_user_together Fixtures.config
     (Fulfilled Fixtures.getUser_failed) (Fulfilled Fixtures.getSession_u2)
     1700000000000 Fixtures.signed_in)).
  reflexivity.
Defined.

(** X5: the session that client-side initialization publishes never has a
    [user] property, whatever [getSession()] returned. *)
Theorem initial_session_has_no_user (cfg : SupabaseConfig)
    (gu gs : Settled Response) (now : Z) (w : World) :
  get_prop (currentSession (state_after (ClientPlugin.setup cfg gu gs now w)))
    "user" = None.
Proof.
  destruct (setup_publishes cfg gu gs now w) as (s & u & Hr & Hp & _).
  unfold pair_of in Hp. injection Hp as Hs Hu. rewrite ?Hs, ?Hu.
  destruct Hr as [[-> ->] | (ru & _ & _ & _ & Ht & rs & _ &
                             [(S & _ & _ & ->) | [_ ->]])].
  - reflexivity.
  - apply without_user_no_user.
  - reflexivity.
Qed.

(** X6: a user that client-side initialization publishes is the [user] of
    what [getUser()] resolved to, without an error, and [getSession()]
    resolved as well; the user inside the session of [getSession()] is
    never published. *)
Theorem initial_user_from_getUser (cfg : SupabaseConfig)
    (gu gs : Settled Response) (now : Z) (w : World) :
  let w' := state_after (ClientPlugin.setup cfg gu gs now w) in
  currentUser w' <> JNull ->
  exists ru rs,
    gu = Fulfilled ru /\ gs = Fulfilled rs /\
    truthy (error ru) = false /\
    get_prop (data ru) "user" = Some (currentUser w').
Proof.
  cbv zeta.
  destruct (setup_publishes cfg gu gs now w) as (s & u & Hr & Hp & _).
  unfold pair_of in Hp. injection Hp as Hs Hu. rewrite ?Hs, ?Hu. intros Hn.
  destruct Hr as [[_ ->] | (ru & -> & He & Hg & _ & rs & -> & _)].
  - contradiction.
  - exists ru, rs. auto.
Qed.

Lemma initial_user_from_getUser_witness :
  exists ru rs,
    Fulfilled Fixtures.getUser_u1 = Fulfilled ru /\
    Fulfilled Fixtures.getSession_u2 = Fulfilled rs /\
    truthy (error ru) = false /\
    get_prop (data ru) "user"
    = Some (currentUser (state_after (ClientPlugin.setup Fixtures.config
        (Fulfilled Fixtures.getUser_u1) (Fulfilled Fixtures.getSession_u2)
        1700000000000 Fixtures.fresh))).
Proof.
  apply (initial_user_from_getUser Fixtures.config
           (Fulfilled Fixtures.getUser_u1) (Fulfilled Fixtures.getSession_u2)
           1700000000000 Fixtures.fresh).
  discriminate.
Defined.

(** X7: what client-side initialization publishes depends on the two
    provider results and the clock only: not on what the cells held before
    (a state handed over by the server is overwritten), nor on the
    configuration. *)
Theorem prior_state_overwritten (cfg cfg' : SupabaseConfig)
    (gu gs : Settled Response) (now : Z) (w w' : World) :
  pair_of (state_after (ClientPlugin.setup cfg gu gs now w))
  = pair_of (state_after (ClientPlugin.setup cfg' gu gs now w')).
Proof.
  unfold ClientPlugin.setup, ClientPlugin.with_locals, ClientPlugin.publish,
    provide, bind, modify, state_after, pair_of.
  match goal with
  | |- context [ClientPlugin.initialize gu gs now ?F] =>
    match goal with
    | |- _ = ?R =>
      match R with
      | context [ClientPlugin.initialize gu gs now ?G] =>
          destruct (initialize_locals_frame gu gs now F G eq_refl eq_refl)
            as [Hs Hu];
          destruct (initialize_locals gu gs now F eq_refl) as (Hc & _);
          destruct (initialize_locals gu gs now G eq_refl) as (Hc' & _);
          destruct (ClientPlugin.initialize gu gs now F) as [c f1];
          destruct (ClientPlugin.initialize gu gs now G) as [c' f2]
      end
    end
  end.
  simpl in *. subst c c'. eff_unfold. simpl. congruence.
Qed.

(** X8: when [getUser()] rejects, [getSession()] is not awaited: setup does
    the same whatever it would settle to, publishes
    [{ session: null, user: null }] and logs the rejection. *)
Theorem getUser_rejection_short_circuits (cfg : SupabaseConfig) (e : JsVal)
    (gs gs' : Settled Response) (now : Z) (w : World) :
  ClientPlugin.setup cfg (Rejected e) gs now w
  = ClientPlugin.setup cfg (Rejected e) gs' now w /\
  pair_of (state_after (ClientPlugin.setup cfg (Rejected e) gs now w))
  = (JNull, JNull) /\
  logged w (state_after (ClientPlugin.setup cfg (Rejected e) gs now w))
    (initialization_error e).
Proof.
  repeat split.
  eff_unfold. simpl.
  eapply logged_here; [console_grows|]. simpl. auto.
Qed.

(** X9: when the user of [getUser()] and the user inside the session of
    [getSession()] have the same [id], the pair is that user and the session
    without its [user], and the console receives entries at level INFO
    only. *)
Theorem matching_ids_no_warning (cfg : SupabaseConfig) (ru rs : Response)
    (A S B : JsVal) (now : Z) (w : World) :
  truthy (error ru) = false ->
  get_prop (data ru) "user" = Some A -> truthy A = true ->
  get_prop (data rs) "session" = Some S -> truthy S = true ->
  get_prop S "user" = Some B ->
  strict_eq (opt_member (Some B) "id") (get_prop A "id") = true ->
  let res := ClientPlugin.setup cfg (Fulfilled ru) (Fulfilled rs) now w in
  pair_of (state_after res) = (without_user S, A) /\
  completes res = true /\
  only_info_logged w (state_after res).
Proof.
  intros Hue HA HtA HS HtS HB Heq.
  pose proof (get_prop_not_null _ _ _ HA) as HnU.
  eff_unfold. simpl.
  rewrite Hue, (member_value _ _ HnU), HA. simpl.
  rewrite (truthy_value_true _ HtA). simpl.
  rewrite !opt_member_value, HS, (truthy_value_true _ HtS). simpl.
  rewrite HB, Heq. simpl.
  rewrite HtA. simpl.
  repeat split.
  eexists. split; [console_grows|].
  simpl. repeat constructor.
Qed.

Lemma matching_ids_no_warning_witness :
  let res := ClientPlugin.setup Fixtures.config
               (Fulfilled Fixtures.getUser_u1)
               (Fulfilled Samples.getSession_u1) 1700000000000
               Fixtures.fresh in
  pair_of (state_after res) = (Fixtures.stored_session, Fixtures.user_u1) /\
  completes res = true /\
  only_info_logged Fixtures.fresh (state_after res).
Proof.
  apply (matching_ids_no_warning Fixtures.config Fixtures.getUser_u1
           Samples.getSession_u1 Fixtures.user_u1
           (Fixtures.session_of Fixtures.user_u1) Fixtures.user_u1
           1700000000000 Fixtures.fresh); reflexivity.
Defined.

(** X10: when [getUser()] yields a user with an [id] but the session of
    [getSession()] has no [user], reading the [id] of that missing user for
    the mismatch warning raises: the verified user is dropped and
    [{ session: null, user: null }] is published. *)
Theorem session_without_user_discards_user (cfg : SupabaseConfig)
    (ru rs : Response) (A S i : JsVal) (now : Z) (w : World) :
  truthy (error ru) = false ->
  get_prop (data ru) "user" = Some A -> truthy A = true ->
  get_prop A "id" = Some i ->
  get_prop (data rs) "session" = Some S -> truthy S = true ->
  get_prop S "user" = None \/ get_prop S "user" = Some JNull ->
  let res := ClientPlugin.setup cfg (Fulfilled ru) (Fulfilled rs) now w in
  pair_of (state_after res) = (JNull, JNull) /\
  completes res = true /\
  logged w (state_after res) (initialization_error TypeError).
Proof.
  intros Hue HA HtA Hi HS HtS HB.
  pose proof (get_prop_not_null _ _ _ HA) as HnU.
  eff_unfold. simpl.
  rewrite Hue, (member_value _ _ HnU), HA. simpl.
  rewrite (truthy_value_true _ HtA). simpl.
  rewrite !opt_member_value, HS, (truthy_value_true _ HtS). simpl.
  rewrite Hi.
  assert (Hne : strict_eq (opt_member (get_prop S "user") "id") (Some i)
                = false)
    by (destruct HB as [-> | ->]; reflexivity).
  rewrite Hne. simpl.
  rewrite (member_nullish _ "id" HB). simpl.
  repeat split.
  eapply logged_here; [console_grows|]. simpl. auto 10.
Qed.

Lemma session_without_user_discards_user_witness :
  let res := ClientPlugin.setup Fixtures.config
               (Fulfilled Fixtures.getUser_u1)
               (Fulfilled Fixtures.getSession_without_user) 1700000000000
               Fixtures.fresh in
  pair_of (state_after res) = (JNull, JNull) /\
  completes res = true /\
  logged Fixtures.fresh (state_after res) (initialization_error TypeError).
Proof.
  apply (session_without_user_discards_user Fixtures.config
           Fixtures.getUser_u1 Fixtures.getSession_without_user
           Fixtures.user_u1 Fixtures.stored_session (JStr "u1")
           1700000000000 Fixtures.fresh); try reflexivity.
  left. reflexivity.
Defined.

(* ----------------------------------------------------------------- *)
(** ** Sequences of auth events *)

Lemma stringify_eqb (a b : JsVal) :
  String.eqb (JSON.stringify a) (JSON.stringify b) = true <-> a = b.
Proof.
  rewrite String.eqb_eq. split; [apply JSONFacts.stringify_injective|].
  now intros ->.
Qed.

(** The two ways the callback can go. *)
Lemma onAuthStateChange_cases (k : string) (s : JsVal) (w : World) :
  let w' := state_after (ClientPlugin.onAuthStateChange k s w) in
  (currentSession w = s /\ writes w' = writes w /\ pair_of w' = pair_of w) \/
  (currentSession w <> s /\
   writes w' = writes w ++ [(SessionCell, s); (UserCell, user_of s)] /\
   pair_of w' = (s, user_of s)).
Proof.
  eff_unfold. simpl.
  destruct (String.eqb _ _) eqn:E; simpl.
  - left. apply stringify_eqb in E. auto.
  - right. repeat split.
    + intros H. apply stringify_eqb in H. congruence.
    + now rewrite <- app_assoc.
Qed.

(** X11: the callback never assigns one cell without the other: it either
    assigns nothing, exactly when the incoming session equals the held one,
    or assigns the session cell and then the user cell, once each; either
    way the session cell holds the incoming session afterwards. *)
Theorem event_writes_paired (k : string) (s : JsVal) (w : World) :
  let w' := state_after (ClientPlugin.onAuthStateChange k s w) in
  currentSession w' = s /\
  ((currentSession w = s /\ writes w' = writes w /\
    currentUser w' = currentUser w) \/
   (currentSession w <> s /\
    writes w' = writes w ++ [(SessionCell, s); (UserCell, user_of s)] /\
    currentUser w' = user_of s)).
Proof.
  cbv zeta.
  destruct (onAuthStateChange_cases k s w) as [(H & Hw & Hp) | (H & Hw & Hp)];
    cbv zeta in Hw, Hp; unfold pair_of in Hp; injection Hp as Hs Hu.
  - split; [congruence|]. left. auto.
  - split; [exact Hs|]. right. auto.
Qed.

Lemma onAuthStateChange_settled k s w :
  typed_session s = true -> settled w ->
  pair_of (state_after (ClientPlugin.onAuthStateChange k s w)) = (s, user_of s).
Proof.
  intros Ht Hw.
  destruct (onAuthStateChange_cases k s w) as [(H & _ & Hp) | (_ & _ & Hp)];
    cbv zeta in Hp; [|exact Hp].
  rewrite Hp. unfold pair_of. subst s.
  destruct Hw as [Hu | [Hn Hg]].
  - now rewrite Hu.
  - exfalso. unfold typed_session in Ht. rewrite Hg in Ht.
    destruct (currentSession w); try discriminate. contradiction.
Qed.

Lemma pair_settled (w : World) (s : JsVal) :
  pair_of w = (s, user_of s) -> settled w.
Proof.
  unfold pair_of. intros H. injection H as Hs Hu. left. now rewrite Hu, Hs.
Qed.

Lemma deliver_last events : forall w,
  settled w ->
  forallb (fun ev => typed_session (snd ev)) events = true ->
  events <> [] ->
  pair_of (state_after (ClientPlugin.deliver events w))
  = (snd (last events ("", JNull)), user_of (snd (last events ("", JNull)))).
Proof.
  induction events as [|[k s] rest IH]; intros w Hw Ht Hne; [contradiction|].
  simpl in Ht. apply andb_prop in Ht. destruct Ht as [Hs Hr].
  pose proof (onAuthStateChange_settled k s w Hs Hw) as H1.
  pose proof (onAuthStateChange_completes k s w) as H2.
  cbn [ClientPlugin.deliver]. unfold bind.
  destruct (ClientPlugin.onAuthStateChange k s w) as [c w1].
  simpl in H1, H2. subst c.
  destruct rest as [|ev rest'].
  - simpl. exact H1.
  - change (last ((k, s) :: ev :: rest') ("", JNull))
      with (last (ev :: rest') ("", JNull)).
    apply IH; [eapply pair_settled; exact H1 | exact Hr | discriminate].
Qed.

Lemma setup_settled cfg gu gs now w :
  settled (state_after (ClientPlugin.setup cfg gu gs now w)).
Proof.
  destruct (setup_publishes cfg gu gs now w) as (s & u & Hr & Hp & _).
  unfold pair_of in Hp. injection Hp as Hs Hu. unfold settled.
  rewrite Hs, Hu.
  destruct Hr as [[-> ->] | (ru & _ & _ & _ & Ht & rs & _ &
                             [(S & _ & _ & ->) | [_ ->]])].
  - left. reflexivity.
  - right. split; [discriminate | apply without_user_no_user].
  - right. split; [discriminate | reflexivity].
Qed.

(** X12: once an auth event has arrived after client-side initialization,
    the pair is that of the latest event: its session and that session's
    user ([null] for a [null] session).  What initialization published, the
    user of [getUser()] included, no longer shows.  The events carry [null]
    or a session with a non-null [user]. *)
Theorem last_event_wins (cfg : SupabaseConfig) (gu gs : Settled Response)
    (now : Z) (w : World) (events : list ClientPlugin.AuthEvent) :
  forallb (fun ev => typed_session (snd ev)) events = true ->
  events <> [] ->
  let s := snd (last events ("", JNull)) in
  pair_of (state_after (ClientPlugin.deliver events
             (state_after (ClientPlugin.setup cfg gu gs now w))))
  = (s, user_of s).
Proof.
  intros Ht Hne. cbv zeta.
  apply deliver_last; [apply setup_settled | exact Ht | exact Hne].
Qed.

Lemma last_event_wins_witness :
  pair_of (state_after (ClientPlugin.deliver
             [("INITIAL_SESSION", Fixtures.session_of Fixtures.user_u2)]
             (state_after (ClientPlugin.setup Fixtures.config
                (Fulfilled Fixtures.getUser_u1)
                (Fulfilled Fixtures.getSession_u2) 1700000000000
                Fixtures.fresh))))
  = (Fixtures.session_of Fixtures.user_u2, Fixtures.user_u2).
Proof.
  apply (last_event_wins Fixtures.config (Fulfilled Fixtures.getUser_u1)
           (Fulfilled Fixtures.getSession_u2) 1700000000000 Fixtures.fresh
           [("INITIAL_SESSION", Fixtures.session_of Fixtures.user_u2)]).
  - reflexivity.
  - discriminate.
Defined.

(** X13: the callback logs every event it receives, skipped or not: after a
    sequence of events the console has gained one entry "Auth state changed"
    per event, in arrival order, with the event kind and the session;
    nothing is provided anew and the delivery completes. *)
Theorem every_event_logged (events : list ClientPlugin.AuthEvent) :
  forall w,
    console (state_after (ClientPlugin.deliver events w))
    = console w ++ map auth_state_changed events /\
    provided (state_after (ClientPlugin.deliver events w)) = provided w /\
    completes (ClientPlugin.deliver events w) = true.
Proof.
  induction events as [|[k s] rest IH]; intros w.
  - simpl. rewrite app_nil_r. auto.
  - cbn [ClientPlugin.deliver]. unfold bind.
    assert (H : exists w1,
      ClientPlugin.onAuthStateChange k s w = (Normal tt, w1) /\
      console w1 = console w ++ [auth_state_changed (k, s)] /\
      provided w1 = provided w).
    { eff_unfold. simpl. destruct (negb _); eexists; repeat split. }
    destruct H as (w1 & -> & Hc & Hp).
    destruct (IH w1) as (Hc' & Hp' & Hd).
    rewrite Hc', Hp', Hc, Hp, <- app_assoc. auto.
Qed.

(** Delivering two runs of events one after the other is delivering their
    concatenation. *)
Lemma deliver_app (l1 l2 : list ClientPlugin.AuthEvent) (w : World) :
  ClientPlugin.deliver (l1 ++ l2) w
  = ClientPlugin.deliver l2 (state_after (ClientPlugin.deliver l1 w)).
Proof.
  revert w. induction l1 as [|[k s] l1 IH]; intros w; [reflexivity|].
  cbn [app ClientPlugin.deliver]. unfold bind.
  pose proof (onAuthStateChange_completes k s w) as H.
  destruct (ClientPlugin.onAuthStateChange k s w) as [c w1].
  simpl in H. subst c. apply IH.
Qed.

(* ----------------------------------------------------------------- *)
(** ** Server-side initialization with SSR cookies *)

(** X14: with [useSsrCookies] on, the server plugin completes whatever the
    two retrievals settle to and in whatever order, provides its client,
    assigns the session cell and then the user cell once each, with the
    retrieved value or [null], and logs at level ERROR exactly the
    retrievals that failed, each with its reason, in the order in which
    they failed. *)
Theorem server_initialization (cfg : SupabaseConfig) (ss su : Settled JsVal)
    (first : ServerPlugin.Settlement) (w : World) :
  useSsrCookies cfg = true ->
  let res := ServerPlugin.setup cfg ss su first w in
  let session_error :=
    retrieval_error "Failed to retrieve server-side Supabase session" ss in
  let user_error :=
    retrieval_error "Failed to retrieve server-side Supabase user" su in
  writes (state_after res)
    = writes w ++ [(SessionCell, or_null ss); (UserCell, or_null su)] /\
  provided (state_after res)
    = provided w ++ [("supabase", ServerPlugin.createServerClient cfg)] /\
  completes res = true /\
  exists l, console (state_after res) = console w ++ l /\
            filter is_error l
            = match first with
              | ServerPlugin.session_first => session_error ++ user_error
              | ServerPlugin.user_first => user_error ++ session_error
              end.
Proof.
  intros Hc. cbv zeta. unfold ServerPlugin.setup. rewrite Hc.
  destruct first, ss as [s|e], su as [u|e'];
    cbn [ServerPlugin.all_caught ServerPlugin.caught]; eff_cbv;
    try destruct (truthy _ && truthy _); eff_cbv; cbn [or_null];
    rewrite <- ?app_assoc; repeat split;
    eexists; (split; [reflexivity | reflexivity]).
Qed.

Lemma server_initialization_witness :
  let res := ServerPlugin.setup Fixtures.config
               (Rejected (JStr "no session"))
               (Rejected Fixtures.auth_error) ServerPlugin.user_first
               Fixtures.fresh in
  writes (state_after res) = [(SessionCell, JNull); (UserCell, JNull)] /\
  completes res = true /\
  exists l, console (state_after res) = l /\
            map log_message (filter is_error l)
            = ["Failed to retrieve server-side Supabase user";
               "Failed to retrieve server-side Supabase session"].
Proof.
  pose proof (server_initialization Fixtures.config
                (Rejected (JStr "no session"))
                (Rejected Fixtures.auth_error) ServerPlugin.user_first
                Fixtures.fresh eq_refl) as H.
  cbv zeta in H. destruct H as (Hw & _ & Hc & l & Hl & Hf).
  cbv zeta. split; [exact Hw | split; [exact Hc|]].
  exists l. split; [exact Hl|]. rewrite Hf. reflexivity.
Defined.

(* ----------------------------------------------------------------- *)
(** ** The options passed to the SDK constructors *)

Section OptionObjects.
Import ClientOptions.

Lemma lookup_define_same k v o : lookup k (define k v o) = Some v.
Proof.
  induction o as [|[k' v'] o IH]; simpl.
  - now rewrite String.eqb_refl.
  - destruct (String.eqb k k') eqn:E; simpl; rewrite E; auto.
Qed.

Lemma lookup_define_other k k' v o :
  k' <> k -> lookup k' (define k v o) = lookup k' o.
Proof.
  intros Hne. induction o as [|[k0 v0] o IH]; simpl.
  - destruct (String.eqb k' k) eqn:E; [|reflexivity].
    apply String.eqb_eq in E. contradiction.
  - destruct (String.eqb k k0) eqn:E; simpl.
    + apply String.eqb_eq in E. subst k0.
      destruct (String.eqb k' k) eqn:E'; [|reflexivity].
      apply String.eqb_eq in E'. contradiction.
    + now rewrite IH.
Qed.

Lemma lookup_none_not_in k (o : Obj) :
  lookup k o = None <-> ~ In k (map fst o).
Proof.
  induction o as [|[k' v] o IH]; simpl; [tauto|].
  destruct (String.eqb k k') eqn:E.
  - apply String.eqb_eq in E. subst. split; [discriminate | tauto].
  - apply String.eqb_neq in E. rewrite IH. split.
    + intros H [H'|H']; [congruence | contradiction].
    + tauto.
Qed.

Lemma lookup_spread_none src : forall o k,
  lookup k src = None -> lookup k (spread src o) = lookup k o.
Proof.
  induction src as [|[k0 v0] src IH]; intros o k H; simpl in *; [reflexivity|].
  destruct (String.eqb k k0) eqn:E; [discriminate|].
  rewrite (IH _ _ H). apply lookup_define_other.
  now apply String.eqb_neq.
Qed.

Lemma lookup_spread_some src : forall o k v,
  NoDup (map fst src) -> lookup k src = Some v ->
  lookup k (spread src o) = Some v.
Proof.
  induction src as [|[k0 v0] src IH]; intros o k v Hnd H; simpl in *;
    [discriminate|].
  inversion Hnd as [|? ? Hni Hnd']; subst.
  destruct (String.eqb k k0) eqn:E.
  - apply String.eqb_eq in E. subst k0. injection H as <-.
    rewrite lookup_spread_none; [apply lookup_define_same|].
    now apply lookup_none_not_in.
  - now apply IH.
Qed.

(** Reading a property of [{ ...o, ...src }]. *)
Lemma lookup_spread src o k :
  NoDup (map fst src) ->
  lookup k (spread src o)
  = match lookup k src with Some v => Some v | None => lookup k o end.
Proof.
  intros Hnd. destruct (lookup k src) as [v|] eqn:E.
  - now apply lookup_spread_some.
  - now apply lookup_spread_none.
Qed.

End OptionObjects.

(** X15: what [clientOptions] and [cookieOptions] say does not reach the
    properties the plugins set themselves: the cookie name handed to the
    server and the browser client is always [cookiePrefix], the server
    client always gets the plugin's [getAll] and [setAll], and the browser
    client is always a singleton. *)
Theorem plugin_options_win (cfg : ClientOptions.PluginConfig) :
  ClientOptions.lookup2 "cookieOptions" "name"
    (ClientOptions.server_options cfg)
    = Some (ClientOptions.OVal (JStr (cookiePrefix (ClientOptions.base cfg))))
  /\
  ClientOptions.lookup2 "cookieOptions" "name"
    (ClientOptions.browser_options cfg)
    = Some (ClientOptions.OVal (JStr (cookiePrefix (ClientOptions.base cfg))))
  /\
  ClientOptions.lookup "cookies" (ClientOptions.server_options cfg)
    = Some (ClientOptions.OObj
              [("getAll", ClientOptions.OFn ClientOptions.getAll);
               ("setAll", ClientOptions.OFn ClientOptions.setAll)]) /\
  ClientOptions.lookup "isSingleton" (ClientOptions.browser_options cfg)
    = Some (ClientOptions.OVal (JBool true)).
Proof.
  unfold ClientOptions.lookup2, ClientOptions.server_options,
    ClientOptions.browser_options, ClientOptions.cookie_options.
  repeat split.
  - rewrite lookup_define_other by discriminate.
    rewrite lookup_define_same. apply lookup_define_same.
  - rewrite !lookup_define_other by discriminate.
    rewrite lookup_define_same. apply lookup_define_same.
  - rewrite !lookup_define_other by discriminate. apply lookup_define_same.
  - rewrite lookup_define_other by discriminate. apply lookup_define_same.
Qed.

(** X16: the [global] options of all three constructors are those of
    [clientOptions.global] with [fetch: fetchWithRetry] as a default only: a
    [fetch] given in [clientOptions.global] replaces the retrying one, and
    every other property given there is kept. *)
Theorem global_options_merge (cfg : ClientOptions.PluginConfig) (k : string) :
  NoDup (map fst (ClientOptions.entries
     (ClientOptions.lookup "global" (ClientOptions.clientOptions cfg)))) ->
  let given :=
    ClientOptions.lookup k (ClientOptions.entries
      (ClientOptions.lookup "global" (ClientOptions.clientOptions cfg))) in
  let merged :=
    match given with
    | Some v => Some v
    | None => if String.eqb k "fetch"
              then Some (ClientOptions.OFn ClientOptions.fetchWithRetry)
              else None
    end in
  ClientOptions.lookup2 "global" k (ClientOptions.server_options cfg)
    = merged /\
  ClientOptions.lookup2 "global" k (ClientOptions.browser_options cfg)
    = merged /\
  ClientOptions.lookup2 "global" k (ClientOptions.plain_options cfg)
    = merged.
Proof.
  intros Hnd. cbv zeta.
  unfold ClientOptions.lookup2, ClientOptions.server_options,
    ClientOptions.browser_options, ClientOptions.plain_options.
  rewrite !lookup_define_same. unfold ClientOptions.global_options.
  rewrite (lookup_spread _ _ k Hnd). simpl. auto.
Qed.

Lemma global_options_merge_witness :
  ClientOptions.lookup2 "global" "fetch"
    (ClientOptions.server_options Samples.custom_fetch)
  = Some (ClientOptions.OFn (ClientOptions.custom "myFetch")).
Proof.
  apply (global_options_merge Samples.custom_fetch "fetch").
  repeat constructor; simpl; intuition discriminate.
Defined.

(** X17: every other property of [clientOptions] reaches the constructor
    unchanged: all but [global] for [createClient] (its [cookieOptions]
    included), all but [global], [cookieOptions] and [cookies] for the
    server client, all but [global], [cookieOptions] and [isSingleton] for
    the browser client. *)
Theorem client_options_pass_through (cfg : ClientOptions.PluginConfig)
    (k : string) :
  NoDup (map fst (ClientOptions.clientOptions cfg)) ->
  k <> "global" ->
  ClientOptions.lookup k (ClientOptions.plain_options cfg)
    = ClientOptions.lookup k (ClientOptions.clientOptions cfg) /\
  (k <> "cookieOptions" -> k <> "cookies" ->
   ClientOptions.lookup k (ClientOptions.server_options cfg)
     = ClientOptions.lookup k (ClientOptions.clientOptions cfg)) /\
  (k <> "cookieOptions" -> k <> "isSingleton" ->
   ClientOptions.lookup k (ClientOptions.browser_options cfg)
     = ClientOptions.lookup k (ClientOptions.clientOptions cfg)).
Proof.
  intros Hnd Hg.
  assert (H : ClientOptions.lookup k
                (ClientOptions.spread (ClientOptions.clientOptions cfg) [])
              = ClientOptions.lookup k (ClientOptions.clientOptions cfg)).
  { rewrite (lookup_spread _ _ k Hnd).
    now destruct (ClientOptions.lookup k (ClientOptions.clientOptions cfg)). }
  unfold ClientOptions.plain_options, ClientOptions.server_options,
    ClientOptions.browser_options.
  repeat split; intros; rewrite !lookup_define_other by assumption;
    exact H.
Qed.

Lemma client_options_pass_through_witness :
  ClientOptions.lookup "db" (ClientOptions.server_options Samples.custom_fetch)
  = Some (ClientOptions.OObj
            [("schema", ClientOptions.OVal (JStr "public"))]).
Proof.
  refine (eq_trans
    (proj1 (proj2 (client_options_pass_through Samples.custom_fetch "db"
                     _ _)) _ _) eq_refl);
    try discriminate.
  repeat constructor; simpl; intuition discriminate.
Defined.

(* ----------------------------------------------------------------- *)
(** ** The logger *)

Section LoggerFacts.
Import LoggerSource.

Lemma perform_emit env c io :
  perform env c io = emit env (channel c) (logObject env c) io.
Proof. destruct c; reflexivity. Qed.

Lemma perform_io env c io :
  requests (perform env c io)
  = requests io ++ posts_of (LoggerCall env c) /\
  calls (perform env c io) = calls io ++ [printed (env, c)].
Proof.
  rewrite perform_emit. unfold emit, sendLogToServer, print, fetch, printed,
    posted, posts_of.
  destruct (isClient env); simpl; rewrite ?app_nil_r; auto.
Qed.

End LoggerFacts.

(** X18: over any sequence of logger calls and rejections of earlier posts,
    taken in the order in which they happen, each call prints its log object
    once, on the console method of its level; a call made in the browser
    posts that same text once to [/api/client-logs], a call made on the
    server posts nothing; a rejected post is reported once on
    [console.error], when its rejection is handled, and is not sent again.
    The numbers logged are in the range written in plain digits. *)
Theorem logger_trace (steps : list LoggerStep) :
  forallb in_range steps = true ->
  forall io,
    LoggerSource.requests (run_logger steps io)
    = LoggerSource.requests io ++ flat_map posts_of steps /\
    LoggerSource.calls (run_logger steps io)
    = LoggerSource.calls io ++ map console_of steps.
Proof.
  intros _. induction steps as [|[env c|err] steps IH]; intros io.
  - simpl. now rewrite !app_nil_r.
  - cbn [run_logger]. destruct (IH (LoggerSource.perform env c io)) as [Hr Hc].
    destruct (perform_io env c io) as [Hr1 Hc1].
    rewrite Hr, Hc, Hr1, Hc1. cbn [flat_map map].
    rewrite <- !app_assoc. auto.
  - cbn [run_logger]. destruct (IH (LoggerSource.post_failed err io)) as [Hr Hc].
    rewrite Hr, Hc. cbn [flat_map map posts_of console_of app].
    unfold LoggerSource.post_failed, LoggerSource.print, failure_report.
    cbn [LoggerSource.requests LoggerSource.calls].
    rewrite <- !app_assoc. auto.
Qed.

Lemma logger_trace_witness :
  let first := LoggerSource.Info "one" None in
  let second := LoggerSource.Warn "two" (Some (JObj [("n", JNum 2)])) in
  let io := run_logger
      [LoggerCall Samples.in_browser first;
       LoggerCall Samples.in_browser second;
       PostRejected (JStr "offline")]
      {| LoggerSource.calls := []; LoggerSource.requests := [] |} in
  LoggerSource.requests io
  = [posted (Samples.in_browser, first);
     posted (Samples.in_browser, second)] /\
  LoggerSource.calls io
  = [printed (Samples.in_browser, first);
     printed (Samples.in_browser, second);
     failure_report (JStr "offline")].
Proof.
  intros first second io.
  apply (logger_trace
           [LoggerCall Samples.in_browser first;
            LoggerCall Samples.in_browser second;
            PostRejected (JStr "offline")]
           eq_refl
           {| LoggerSource.calls := []; LoggerSource.requests := [] |}).
Defined.

(** X19: [logger.error] records the error only when it is truthy: the
    message of an [Error] instance, with its stack when that is not empty,
    or any other truthy value as it is; an error that is missing, [null],
    [0], [false] or the empty string leaves no [error] property. *)
Theorem error_object_fields (env : LoggerSource.Env) (message : string)
    (e : LoggerSource.ErrorObject) :
  let o := LoggerSource.logObject env (LoggerSource.Error message e) in
  get_prop o "level" = Some (JStr "ERROR") /\
  get_prop o "message" = Some (JStr message) /\
  get_prop o "error"
  = match e with
    | LoggerSource.IsError m _ => Some (JStr m)
    | LoggerSource.NotError (Some v) => if truthy v then Some v else None
    | LoggerSource.NotError None => None
    end /\
  get_prop o "stack"
  = match e with
    | LoggerSource.IsError _ (Some s) =>
        if String.eqb s "" then None else Some (JStr s)
    | _ => None
    end.
Proof.
  cbv zeta. unfold LoggerSource.logObject, LoggerSource.error_object,
    LoggerSource.browser_field, LoggerSource.error_fields.
  destruct (LoggerSource.isClient env), e as [m [s|] | [v|]]; cbn;
    try destruct (String.eqb s ""); try destruct (truthy v); auto.
Qed.

(** X20: the [source] of a log object is [client] or [server] by where the
    call is made, except for [logger.navigation], whose source is [client]
    also on the server; there its browser information is the empty object
    and nothing is posted. *)
Theorem log_source_label (env : LoggerSource.Env) (c : LoggerSource.Call)
    (io : LoggerSource.Io) :
  get_prop (LoggerSource.logObject env c) "source"
  = Some (JStr match c with
               | LoggerSource.Navigation _ _ => "client"
               | _ => if LoggerSource.isClient env then "client" else "server"
               end) /\
  (LoggerSource.isClient env = false ->
   forall to from,
     get_prop (LoggerSource.logObject env (LoggerSource.Navigation to from))
       "browser" = Some (JObj []) /\
     LoggerSource.requests
       (LoggerSource.perform env (LoggerSource.Navigation to from) io)
     = LoggerSource.requests io).
Proof.
  split.
  - destruct c as [m d | m d | m e | to from];
      unfold LoggerSource.logObject, LoggerSource.leveled,
        LoggerSource.error_object, LoggerSource.navigation_object,
        LoggerSource.data_field, LoggerSource.source_name;
      try reflexivity.
    + destruct d as [v|]; [destruct (truthy v)|]; reflexivity.
    + destruct d as [v|]; [destruct (truthy v)|]; reflexivity.
  - intros H to from.
    unfold LoggerSource.logObject, LoggerSource.navigation_object,
      LoggerSource.getBrowserInfo, LoggerSource.perform,
      LoggerSource.navigation, LoggerSource.emit.
    rewrite H. split; reflexivity.
Qed.

Lemma log_source_label_witness :
  get_prop (LoggerSource.logObject Samples.on_server
              (LoggerSource.Navigation "/account" "/login")) "browser"
    = Some (JObj []) /\
  LoggerSource.requests
    (LoggerSource.perform Samples.on_server
       (LoggerSource.Navigation "/account" "/login")
       {| LoggerSource.calls := []; LoggerSource.requests := [] |})
  = [].
Proof.
  apply (proj2 (log_source_label Samples.on_server
                  (LoggerSource.Navigation "/account" "/login")
                  {| LoggerSource.calls := []; LoggerSource.requests := [] |})).
  reflexivity.
Defined.

(** X21: [getBrowserInfo] is the empty object on the server; in the browser
    its [referrer] is never the empty string: it is [document.referrer], or
    [direct] when the document has none. *)
Theorem browser_info_referrer (env : LoggerSource.Env) :
  (LoggerSource.isClient env = false ->
   LoggerSource.getBrowserInfo env = JObj []) /\
  (LoggerSource.isClient env = true ->
   exists r,
     get_prop (LoggerSource.getBrowserInfo env) "referrer" = Some (JStr r) /\
     r <> "" /\
     (LoggerSource.referrer (LoggerSource.browser env) <> "" ->
      r = LoggerSource.referrer (LoggerSource.browser env)) /\
     (LoggerSource.referrer (LoggerSource.browser env) = "" ->
      r = "direct")).
Proof.
  unfold LoggerSource.getBrowserInfo. split; intros H; rewrite H;
    [reflexivity|].
  cbn. destruct (String.eqb (LoggerSource.referrer (LoggerSource.browser env))
                            "") eqn:E.
  - apply String.eqb_eq in E. exists "direct".
    repeat split; [discriminate | congruence].
  - apply String.eqb_neq in E.
    exists (LoggerSource.referrer (LoggerSource.browser env)).
    repeat split; [assumption | congruence].
Qed.

Lemma browser_info_referrer_witness :
  exists r,
    get_prop (LoggerSource.getBrowserInfo Samples.in_browser) "referrer"
      = Some (JStr r) /\
    r <> "" /\
    (LoggerSource.referrer (LoggerSource.browser Samples.in_browser) <> "" ->
     r = LoggerSource.referrer (LoggerSource.browser Samples.in_browser)) /\
    (LoggerSource.referrer (LoggerSource.browser Samples.in_browser) = "" ->
     r = "direct").
Proof.
  apply (proj2 (browser_info_referrer Samples.in_browser)).
  reflexivity.
Defined.

(** X22: in the browser, the log call of the auth-event callback prints the
    whole event and posts it to [/api/client-logs]: the text printed and
    posted is different for any two events, so it gives away the event kind
    and the session with everything in it, tokens included. *)
Theorem session_reaches_log_endpoint (env : LoggerSource.Env)
    (ev : ClientPlugin.AuthEvent) (io : LoggerSource.Io) :
  LoggerSource.isClient env = true ->
  let io' := LoggerSource.perform env (auth_state_changed_call ev) io in
  let sent := posted (env, auth_state_changed_call ev) in
  LoggerSource.requests io' = LoggerSource.requests io ++ [sent] /\
  LoggerSource.request_url sent = "/api/client-logs" /\
  In (printed (env, auth_state_changed_call ev)) (LoggerSource.calls io') /\
  LoggerSource.text (printed (env, auth_state_changed_call ev))
    = LoggerSource.request_body sent /\
  (forall ev',
     LoggerSource.request_body (posted (env, auth_state_changed_call ev'))
     = LoggerSource.request_body sent -> ev' = ev).
Proof.
  intros H. cbv zeta.
  destruct (perform_io env (auth_state_changed_call ev) io) as [Hr Hc].
  cbn [posts_of] in Hr. rewrite H in Hr. repeat split.
  - exact Hr.
  - rewrite Hc. apply in_or_app. right. left. reflexivity.
  - intros [k' s'] E. destruct ev as [k s].
    unfold posted in E. cbn [LoggerSource.request_body fst snd] in E.
    apply JSONFacts.stringify_injective in E.
    unfold LoggerSource.logObject, auth_state_changed_call,
      LoggerSource.leveled, LoggerSource.data_field in E.
    cbn [fst snd] in E.
    change (truthy (JObj [("event", JStr k'); ("session", s')])) with true in E.
    change (truthy (JObj [("event", JStr k); ("session", s)])) with true in E.
    cbn [app] in E. injection E as E1 E2. congruence.
Qed.

Lemma session_reaches_log_endpoint_witness :
  let ev := ("SIGNED_IN", Fixtures.session_of Fixtures.user_u1) in
  let io := {| LoggerSource.calls := []; LoggerSource.requests := [] |} in
  LoggerSource.requests
    (LoggerSource.perform Samples.in_browser (auth_state_changed_call ev) io)
  = [posted (Samples.in_browser, auth_state_changed_call ev)].
Proof.
  intros ev io.
  apply (proj1 (session_reaches_log_endpoint Samples.in_browser ev io
                  eq_refl)).
Defined.
